(** * Dash_proto: the log dashboard's data-access layer, verified

    A shallow embedding of [dash_proto.py]: the four query repositories,
    the result formatter, the connection guardian, the JSON-or-text
    renderer and the list-mode fan-out of the search page.

    Conventions of the embedding.
    - A Python [str] is a [string] holding its UTF-8 bytes.
    - A Python [dict] with string keys is a [gmap string pyval].
    - The ODBC driver and the UI toolkit are the outside world.  Every call
      to them is recorded in a trace of events, and what the driver answers
      is read from a [driver] record whose fields see the trace so far, so
      the answers may change from one call to the next.
    - [Connection.cursor()] and [Cursor.close()] are taken to succeed; a
      connection that is gone shows at [Cursor.execute].  A failure of
      [fetchall] takes the same handlers as one of [execute] and is folded
      into it.
    - Of the page, the data flow is embedded: which repository operations
      run, on what input, and what is made of their results.  Tables,
      charts and layout are left out.
    - The aggregation queries are SQL text the program hands to the
      database.  The direction inference is embedded from that text, over
      a record of what the collation of the database decides. *)

From Stdlib Require Import ZArith Ascii.
From stdpp Require Import base option list strings gmap fin_maps.

#[local] Set Warnings "-clear-no-such-hyp".

(** ** Python and SQL values *)

Inductive pyval : Type :=
| PyNone
| PyBool (b : bool)
| PyInt (z : Z)
| PyStr (s : string).

#[global] Instance pyval_eq_dec : EqDecision pyval.
Proof. solve_decision. Defined.

(** Truth value of a Python object, as [not x] and [if x] read it. *)
Definition truthy (v : pyval) : bool :=
  match v with
  | PyNone => false
  | PyBool b => b
  | PyInt z => negb (Z.eqb z 0)
  | PyStr "" => false
  | PyStr _ => true
  end.

Definition isinstance_str (v : pyval) : bool :=
  match v with
  | PyStr _ => true
  | _ => false
  end.

(** The text of a value known to be a [str]. *)
Definition as_str (v : pyval) : string :=
  match v with
  | PyStr s => s
  | _ => ""
  end.

(** [not s] for a value of type [str]. *)
Definition str_falsy (s : string) : bool :=
  match s with
  | "" => true
  | _ => false
  end.

(** ** Dictionaries *)

(** [dict(pairs)]: the pairs are stored from left to right, so a key that
    comes again overwrites the value stored before. *)
Definition dict (pairs : list (string * pyval)) : gmap string pyval :=
  foldl (λ d kv, <[kv.1 := kv.2]> d) ∅ pairs.

(** ** Result formatter *)

(** What a cursor holds after a successful [execute]: the column
    descriptions (name first, then the type code) and the rows that
    [fetchall] hands out. *)
Record cursor_result : Type := CursorResult {
  description : list (string * string);
  fetchall : list (list pyval)
}.

(** [_format_results], the same in the four repository classes. *)
Definition _format_results (cursor : cursor_result) : list (gmap string pyval) :=
  let columns := (λ column, column.1) <$> description cursor in
  (λ row, dict (zip columns row)) <$> fetchall cursor.

(** The column names of a cursor, as [_format_results] reads them. *)
Definition column_names (cursor : cursor_result) : list string :=
  (λ column, column.1) <$> description cursor.

(** [i] is the last position of [columns] that bears the name [c]. *)
Definition last_position (columns : list string) (c : string) (i : nat) : Prop :=
  columns !! i = Some c ∧ ∀ j, i < j → columns !! j ≠ Some c.

(** ** Exceptions *)

(** The exception classes of the driver (PEP 249), the one [json.loads]
    raises, and one class standing for every other exception. *)
Inductive exn_class : Type :=
| PyodbcError
| InterfaceError
| DatabaseError
| DataError
| OperationalError
| IntegrityError
| InternalError
| ProgrammingError
| NotSupportedError
| JSONDecodeError
| OtherException.

#[global] Instance exn_class_eq_dec : EqDecision exn_class.
Proof. solve_decision. Defined.

(** An exception object: its class and the text [str(ex)] gives. *)
Record exn : Type := Exn {
  exn_cls : exn_class;
  exn_str : string
}.

#[global] Instance exn_eq_dec : EqDecision exn.
Proof. solve_decision. Defined.

(** [except pyodbc.Error]: every class of the driver is a subclass. *)
Definition is_pyodbc_Error (e : exn) : bool :=
  match exn_cls e with
  | JSONDecodeError | OtherException => false
  | _ => true
  end.

(** [except json.JSONDecodeError]. *)
Definition is_JSONDecodeError (e : exn) : bool :=
  match exn_cls e with
  | JSONDecodeError => true
  | _ => false
  end.

(** [except (pyodbc.OperationalError, pyodbc.ProgrammingError)]. *)
Definition is_Operational_or_Programming (e : exn) : bool :=
  match exn_cls e with
  | OperationalError | ProgrammingError => true
  | _ => false
  end.

(** [except Exception]. *)
Definition is_Exception (e : exn) : bool := true.

(** ** The outside world *)

(** A connection handle. *)
Definition connection : Type := nat.

#[local] Set Warnings "-register-all".

(** JSON documents, as [json.loads] builds them; a number keeps its text. *)
Inductive json : Type :=
| JNull
| JBool (b : bool)
| JNumber (literal : string)
| JString (s : string)
| JArray (items : list json)
| JObject (members : list (string * json)).

(** What the page shows. *)
Inductive widget : Type :=
| StError (msg : string)
| StWarning (msg : string)
| StInfo (msg : string)
| StJson (body : json)
| StCode (body : string).

Inductive event : Type :=
| EvConnect
| EvCursor (c : connection)
| EvExecute (c : connection) (sql : string) (params : list pyval)
| EvClose (c : connection)
| EvUi (w : widget).

(** The driver's answers.  Each sees the trace up to the call. *)
Record driver : Type := Driver {
  pyodbc_connect : list event → exn + connection;
  cursor_execute : list event → connection → string → list pyval → exn + cursor_result
}.

(** The repository objects: each holds the connection it was built with. *)
Record TixlogRepository : Type := NewTixlogRepository { tixlog_connection : connection }.
Record MclogRepository : Type := NewMclogRepository { mclog_connection : connection }.
Record Mix100Repository : Type := NewMix100Repository { mix100_connection : connection }.
Record MclogCctRepository : Type := NewMclogCctRepository { mclog_cct_connection : connection }.

(** The dictionary stored under [st.session_state.repos]. *)
Record repos : Type := Repos {
  tixlog : TixlogRepository;
  mclog : MclogRepository;
  mix100 : Mix100Repository;
  mclog_cct : MclogCctRepository
}.

(** An attribute of [st.session_state]: never set, set to [None], or set
    to an object. *)
Inductive slot (A : Type) : Type :=
| Unset
| SetNone
| Holds (a : A).
Arguments Unset {A}.
Arguments SetNone {A}.
Arguments Holds {A} a.

Record world : Type := World {
  trace : list event;
  db_connection : slot connection;
  session_repos : slot repos
}.

(** ** Computations *)

Inductive outcome (A : Type) : Type :=
| Returns (a : A)
| Raises (e : exn).
Arguments Returns {A} a.
Arguments Raises {A} e.

(** A Python computation: it reads the driver, changes the world, and
    either returns or raises. *)
Definition py (A : Type) : Type := driver → world → outcome A * world.

#[global] Instance py_ret : MRet py := λ A a _ w, (Returns a, w).

#[global] Instance py_bind : MBind py := λ A B k m drv w,
  match m drv w with
  | (Returns a, w') => k a drv w'
  | (Raises e, w') => (Raises e, w')
  end.

Definition raise {A} (e : exn) : py A := λ _ w, (Raises e, w).

(** [try: body finally: fin].  [fin] runs on both ways out of [body]; it
    keeps what [body] returned or raised unless it raises itself. *)
Definition try_finally {A} (body : py A) (fin : py unit) : py A := λ drv w,
  let '(r, w') := body drv w in
  match fin drv w' with
  | (Returns _, w'') => (r, w'')
  | (Raises e, w'') => (Raises e, w'')
  end.

(** [try: body except C as ex: handler ex], [C] given by its test. *)
Definition try_except {A} (body : py A) (catches : exn → bool) (handler : exn → py A)
    : py A := λ drv w,
  match body drv w with
  | (Raises e, w') => if catches e then handler e drv w' else (Raises e, w')
  | r => r
  end.

Definition emit (ev : event) : py unit := λ _ w,
  (Returns (), World (trace w ++ [ev]) (db_connection w) (session_repos w)).

(** [pyodbc.connect(st.secrets[...][...])]; reading the secret is part of
    the attempt. *)
Definition connect : py connection := λ drv w,
  let w' := World (trace w ++ [EvConnect]) (db_connection w) (session_repos w) in
  match pyodbc_connect drv (trace w) with
  | inl e => (Raises e, w')
  | inr c => (Returns c, w')
  end.

(** [connection.cursor()]: the cursor is known by its connection. *)
Definition cursor (c : connection) : py connection :=
  emit (EvCursor c);; mret c.

(** [cursor.execute(sql, params)], leaving the cursor ready to be read. *)
Definition execute (cur : connection) (sql : string) (params : list pyval)
    : py cursor_result := λ drv w,
  let w' := World (trace w ++ [EvExecute cur sql params]) (db_connection w)
              (session_repos w) in
  match cursor_execute drv (trace w) cur sql params with
  | inl e => (Raises e, w')
  | inr r => (Returns r, w')
  end.

Definition close (cur : connection) : py unit := emit (EvClose cur).

Definition st_error (msg : string) : py unit := emit (EvUi (StError msg)).
Definition st_warning (msg : string) : py unit := emit (EvUi (StWarning msg)).
Definition st_info (msg : string) : py unit := emit (EvUi (StInfo msg)).
Definition st_json (body : json) : py unit := emit (EvUi (StJson body)).
Definition st_code (body : string) : py unit := emit (EvUi (StCode body)).

(** Reading and writing [st.session_state]. *)
Definition get_db_connection : py (slot connection) := λ _ w, (Returns (db_connection w), w).
Definition get_repos : py (slot repos) := λ _ w, (Returns (session_repos w), w).
Definition set_db_connection (v : slot connection) : py unit := λ _ w,
  (Returns (), World (trace w) v (session_repos w)).
Definition set_repos (v : slot repos) : py unit := λ _ w,
  (Returns (), World (trace w) (db_connection w) v).

(** Events of interest, counted in a trace. *)
Definition is_connect (ev : event) : bool :=
  match ev with
  | EvConnect => true
  | _ => false
  end.


(** ** String helpers *)

(** Number of times the byte [c] occurs in [s]. *)
Fixpoint count_char (c : ascii) (s : string) : nat :=
  match s with
  | "" => 0
  | String a s' => (if Ascii.eqb a c then 1 else 0) + count_char c s'
  end.

(** [c in s], for a one-character [c]. *)
Fixpoint str_in (c : ascii) (s : string) : bool :=
  match s with
  | "" => false
  | String a s' => Ascii.eqb a c || str_in c s'
  end.

(** [s.find(c)]: the first index of [c], or [-1]. *)
Fixpoint str_find (c : ascii) (s : string) : Z :=
  match s with
  | "" => (-1)%Z
  | String a s' =>
    if Ascii.eqb a c then 0%Z
    else let i := str_find c s' in
         if (i <? 0)%Z then (-1)%Z else (i + 1)%Z
  end.

Fixpoint str_drop (n : nat) (s : string) : string :=
  match n, s with
  | S n', String _ s' => str_drop n' s'
  | _, _ => s
  end.

(** [s[i:]]; a negative [i] counts from the end. *)
Definition str_slice_from (i : Z) (s : string) : string :=
  if (i <? 0)%Z then str_drop (Z.to_nat (Z.of_nat (String.length s) + i)) s
  else str_drop (Z.to_nat i) s.

(** [s.split(sep)] for a one-character separator: the pieces between the
    separators, so one more than there are separators.  [cur] holds the
    piece being read, last byte first. *)
Fixpoint split_go (sep : ascii) (cur : string) (s : string) : list string :=
  match s with
  | "" => [String.rev cur]
  | String a s' =>
    if Ascii.eqb a sep then String.rev cur :: split_go sep "" s'
    else split_go sep (String a cur) s'
  end.

Definition str_split (sep : ascii) (s : string) : list string := split_go sep "" s.

(** White space as [str.strip()] sees it: the characters for which
    [str.isspace()] holds.  Below U+0080 they are one byte. *)
Definition is_space_ascii (c : ascii) : bool :=
  let n := nat_of_ascii c in
  ((9 <=? n) && (n <=? 13)) || ((28 <=? n) && (n <=? 32)).

(** U+0085 and U+00A0, in UTF-8: [C2 85] and [C2 A0]. *)
Definition is_space_utf8_2 (c d : ascii) : bool :=
  (nat_of_ascii c =? 194) && ((nat_of_ascii d =? 133) || (nat_of_ascii d =? 160)).

(** U+1680 [E1 9A 80]; U+2000 to U+200A [E2 80 80] to [E2 80 8A]; U+2028,
    U+2029, U+202F [E2 80 A8], [E2 80 A9], [E2 80 AF]; U+205F [E2 81 9F];
    U+3000 [E3 80 80]. *)
Definition is_space_utf8_3 (c d e : ascii) : bool :=
  let c := nat_of_ascii c in
  let d := nat_of_ascii d in
  let e := nat_of_ascii e in
  ((c =? 225) && (d =? 154) && (e =? 128))
  || ((c =? 226) && (d =? 128)
      && (((128 <=? e) && (e <=? 138)) || (e =? 168) || (e =? 169) || (e =? 175)))
  || ((c =? 226) && (d =? 129) && (e =? 159))
  || ((c =? 227) && (d =? 128) && (e =? 128)).

(** [s.lstrip()]. *)
Fixpoint lstrip (s : string) : string :=
  match s with
  | "" => ""
  | String c r =>
    if is_space_ascii c then lstrip r else
    match r with
    | "" => s
    | String d r' =>
      if is_space_utf8_2 c d then lstrip r' else
      match r' with
      | "" => s
      | String e r'' => if is_space_utf8_3 c d e then lstrip r'' else s
      end
    end
  end.

(** [lstrip] of a string read from its end: the bytes of a character come
    last byte first. *)
Fixpoint lstrip_rev (s : string) : string :=
  match s with
  | "" => ""
  | String e r =>
    if is_space_ascii e then lstrip_rev r else
    match r with
    | "" => s
    | String d r' =>
      if is_space_utf8_2 d e then lstrip_rev r' else
      match r' with
      | "" => s
      | String c r'' => if is_space_utf8_3 c d e then lstrip_rev r'' else s
      end
    end
  end.

(** [s.rstrip()]. *)
Definition rstrip (s : string) : string := String.rev (lstrip_rev (String.rev s)).

(** [s.strip()]. *)
Definition strip (s : string) : string := lstrip (rstrip s).

(** [sep.join(parts)]. *)
Fixpoint str_join (sep : string) (parts : list string) : string :=
  match parts with
  | [] => ""
  | [p] => p
  | p :: rest => p +:+ sep +:+ str_join sep rest
  end.

(** ** The repositories *)

(** A formatted row. *)
Abbreviation row := (gmap string pyval).

Module Tixlog.

Definition _execute_query (self : TixlogRepository) (base_query where_clause : string)
    (params : list pyval) : py (list row) :=
  cursor ← cursor (tixlog_connection self);
  try_finally
    (let sql_query := base_query +:+ " WHERE " +:+ where_clause +:+ " ORDER BY ID DESC" in
     r ← execute cursor sql_query params;
     mret (_format_results r))
    (close cursor).

Definition find_by_nr_controle (self : TixlogRepository) (nr_controle : string)
    : py (list row) :=
  if str_falsy nr_controle then mret [] else
  let query := "SELECT TOP (1000) * FROM [indigo_pix].[dbo].[TIXLOG] WITH (NOLOCK)" in
  _execute_query self query "NR_CONTROLE = ?" [PyStr nr_controle].

Definition find_by_idreqjdpi (self : TixlogRepository) (idreqjdpi : string)
    : py (list row) :=
  if str_falsy idreqjdpi then mret [] else
  let query := "SELECT TOP (1000) * FROM [indigo_pix].[dbo].[TIXLOG] WITH (NOLOCK)" in
  _execute_query self query "IDREQJDPI = ?" [PyStr idreqjdpi].

Definition find_by_nr_controle_in (self : TixlogRepository) (nr_controles : list string)
    : py (list row) :=
  match nr_controles with
  | [] => mret []
  | _ =>
    let query := "SELECT TOP (1000) * FROM [indigo_pix].[dbo].[TIXLOG] WITH (NOLOCK)" in
    let placeholders := str_join ", " ((λ _, "?") <$> nr_controles) in
    let where_clause := "NR_CONTROLE IN (" +:+ placeholders +:+ ")" in
    _execute_query self query where_clause (PyStr <$> nr_controles)
  end.

Definition find_by_json_content (self : TixlogRepository) (text_to_find : string)
    : py (list row) :=
  if str_falsy text_to_find then mret [] else
  cursor ← cursor (tixlog_connection self);
  try_finally
    (try_except
       (let param_value := "%" +:+ text_to_find +:+ "%" in
        let sql_query := "
                SELECT TOP (1000) 
                    *,
                    CASE
                        WHEN [JSON] LIKE ? AND [JSON_RETORNO] LIKE ? THEN 'Ambos'
                        WHEN [JSON] LIKE ? THEN 'JSON Enviado'
                        WHEN [JSON_RETORNO] LIKE ? THEN 'JSON Retorno'
                    END AS LocalEncontrado
                FROM [indigo_pix].[dbo].[TIXLOG] WITH (NOLOCK)
                WHERE ([JSON] LIKE ? OR [JSON_RETORNO] LIKE ?)
                ORDER BY ID DESC
            " in
        let params := PyStr <$> [param_value; param_value; param_value;
                                 param_value; param_value; param_value] in
        r ← execute cursor sql_query params;
        mret (_format_results r))
       is_pyodbc_Error
       (λ ex, st_error ("Erro ao executar a busca no JSON: " +:+ exn_str ex);; mret []))
    (close cursor).

Definition find_by_origem (self : TixlogRepository) (origem : string) : py (list row) :=
  if str_falsy origem then mret [] else
  let query := "SELECT TOP (1000) * FROM [indigo_pix].[dbo].[TIXLOG] WITH (NOLOCK)" in
  _execute_query self query "ORIGEM = ?" [PyStr origem].

Definition get_new_entries_per_minute (self : TixlogRepository) : py (list row) :=
  cursor ← cursor (tixlog_connection self);
  try_finally
    (try_except
       (let sql_query := "
                WITH PrimeirasOcorrencias AS (
                    SELECT
                        [DATAHORA],
                        [NR_CONTROLE],
                        ROW_NUMBER() OVER(PARTITION BY [NR_CONTROLE] ORDER BY [DATAHORA] ASC) AS OrdemAparicao
                    FROM
                        [indigo_pix].[dbo].[TIXLOG] WITH (NOLOCK)
                    WHERE [DATAHORA] >= DATEADD(day, -1, GETDATE())
                )
                SELECT
                    FORMAT([DATAHORA], 'yyyy-MM-dd HH:mm') AS [MinutoFormatado],
                    COUNT(*) AS [NovosNrControlePorMinuto]
                FROM
                    PrimeirasOcorrencias
                WHERE
                    OrdemAparicao = 1
                GROUP BY
                    FORMAT([DATAHORA], 'yyyy-MM-dd HH:mm')
                ORDER BY
                    [MinutoFormatado] ASC;
            " in
        r ← execute cursor sql_query [];
        mret (_format_results r))
       is_pyodbc_Error
       (λ ex, st_error ("Erro ao buscar estatísticas: " +:+ exn_str ex);; mret []))
    (close cursor).

Definition get_transaction_summary (self : TixlogRepository) (nr_controle : string)
    : py (list row) :=
  if str_falsy nr_controle then mret [] else
  cursor ← cursor (tixlog_connection self);
  try_finally
    (try_except
       (let sql_query := "
                WITH OperationType_CTE AS (
                    SELECT
                        NR_CONTROLE,
                        MAX(
                            CASE
                                WHEN USUARIO = 'envia_pix_prod' OR DESCRICAO LIKE '%DÉBITO%' THEN 'OUT'
                                WHEN USUARIO = 'recebe_pix_prod' OR DESCRICAO LIKE '%CRÉDITO%' THEN 'IN'
                                ELSE 'Indefinido'
                            END
                        ) AS Tipo_Operacao
                    FROM [indigo_pix].[dbo].[TIXLOG] WITH (NOLOCK)
                    WHERE NR_CONTROLE = ?
                    GROUP BY NR_CONTROLE
                ),
                TransactionAggregation_CTE AS (
                    SELECT
                        NR_CONTROLE,
                        MIN(DATAHORA) AS Primeira_Operacao,
                        MAX(DATAHORA) AS Ultima_Operacao,
                        DATEDIFF(MILLISECOND, MIN(DATAHORA), MAX(DATAHORA)) AS Intervalo_Total_MS,
                        COUNT(ID) AS Quantidade_Etapas
                    FROM [indigo_pix].[dbo].[TIXLOG] WITH (NOLOCK)
                    WHERE NR_CONTROLE = ?
                    GROUP BY NR_CONTROLE
                )
                SELECT
                    agg.NR_CONTROLE,
                    ISNULL(ot.Tipo_Operacao, 'Indefinido') AS Tipo_Operacao,
                    agg.Primeira_Operacao,
                    agg.Ultima_Operacao,
                    agg.Intervalo_Total_MS,
                    agg.Quantidade_Etapas
                FROM TransactionAggregation_CTE agg
                LEFT JOIN OperationType_CTE ot ON agg.NR_CONTROLE = ot.NR_CONTROLE;
            " in
        r ← execute cursor sql_query [PyStr nr_controle; PyStr nr_controle];
        mret (_format_results r))
       is_pyodbc_Error
       (λ ex, st_error ("Erro ao buscar o sumário da transação: " +:+ exn_str ex);;
              mret []))
    (close cursor).

Definition get_performance_summary_data (self : TixlogRepository) (mode : string)
    : py (list row) :=
  let source_data_subquery :=
    if bool_decide (mode = "24h") then
      Some "[indigo_pix].[dbo].[TIXLOG] WITH (NOLOCK) WHERE [DATAHORA] >= DATEADD(day, -1, GETDATE())"
    else if bool_decide (mode = "100k") then
      Some "(SELECT TOP 100000 * FROM [indigo_pix].[dbo].[TIXLOG] WITH (NOLOCK) ORDER BY ID DESC) AS RecentLogs"
    else None in
  match source_data_subquery with
  | None => mret []
  | Some source_data_subquery =>
    cursor ← cursor (tixlog_connection self);
    try_finally
      (try_except
         (let sql_query := "
                WITH OperationType_CTE AS (
                    SELECT
                        NR_CONTROLE,
                        MAX(
                            CASE
                                WHEN USUARIO = 'envia_pix_prod' OR DESCRICAO LIKE '%DÉBITO%' THEN 'OUT'
                                WHEN USUARIO = 'recebe_pix_prod' OR DESCRICAO LIKE '%CRÉDITO%' THEN 'IN'
                                ELSE 'Indefinido'
                            END
                        ) AS Tipo_Operacao
                    FROM " +:+ source_data_subquery +:+ "
                    GROUP BY NR_CONTROLE
                ),
                TransactionAggregation_CTE AS (
                    SELECT
                        NR_CONTROLE,
                        DATEDIFF(MILLISECOND, MIN(DATAHORA), MAX(DATAHORA)) AS Intervalo_Total_MS
                    FROM " +:+ source_data_subquery +:+ "
                    GROUP BY NR_CONTROLE
                )
                SELECT
                    agg.NR_CONTROLE,
                    ISNULL(ot.Tipo_Operacao, 'Indefinido') AS Tipo_Operacao,
                    agg.Intervalo_Total_MS
                FROM TransactionAggregation_CTE agg
                LEFT JOIN OperationType_CTE ot ON agg.NR_CONTROLE = ot.NR_CONTROLE;
            " in
          r ← execute cursor sql_query [];
          mret (_format_results r))
         is_pyodbc_Error
         (λ ex, st_error ("Erro ao buscar dados de performance: " +:+ exn_str ex);;
                mret []))
      (close cursor)
  end.

End Tixlog.

Module Mclog.

Definition find_by_outras_info (self : MclogRepository) (search_term : string)
    : py (list row) :=
  if str_falsy search_term then mret [] else
  cursor ← cursor (mclog_connection self);
  try_finally
    (try_except
       (let param_value := "%" +:+ search_term +:+ "%" in
        let sql_query := "SELECT TOP (1000) * FROM [indigo_cad].[dbo].[MCLOG] WITH (NOLOCK) WHERE OUTRAS_INFO LIKE ? ORDER BY ID DESC" in
        r ← execute cursor sql_query [PyStr param_value];
        mret (_format_results r))
       is_pyodbc_Error
       (λ ex, st_error ("Erro ao executar a busca em MCLOG: " +:+ exn_str ex);; mret []))
    (close cursor).

Definition get_operations_per_minute (self : MclogRepository) (hours_ago : Z)
    : py (list row) :=
  cursor ← cursor (mclog_connection self);
  try_finally
    (try_except
       (let sql_query := "
                SELECT
                    FORMAT(DATAHORA, 'yyyy-MM-dd HH:mm') AS Minuto,
                    FUNCAO,
                    COUNT(*) AS NumeroDeOperacoes
                FROM
                    [indigo_cad].[dbo].MCLOG WITH (NOLOCK)
                WHERE DATAHORA >= DATEADD(hour, -?, GETDATE())
                GROUP BY
                    FORMAT(DATAHORA, 'yyyy-MM-dd HH:mm'),
                    FUNCAO
                ORDER BY
                    Minuto ASC,
                    FUNCAO;
            " in
        r ← execute cursor sql_query [PyInt hours_ago];
        mret (_format_results r))
       is_pyodbc_Error
       (λ ex, st_error ("Erro ao buscar estatísticas da MCLOG: " +:+ exn_str ex);;
              mret []))
    (close cursor).

Definition get_latest_errors (self : MclogRepository) : py (list row) :=
  cursor ← cursor (mclog_connection self);
  try_finally
    (try_except
       (let sql_query := "
                SELECT TOP (1000)
                    [ID], [USUARIO], [DATAHORA], [FUNCAO], [IAE], [OUTRAS_INFO], [CODIGO_CLIENTE]
                FROM
                    [indigo_cad].[dbo].MCLOG WITH (NOLOCK)
                WHERE
                    IAE = 'E' AND DATAHORA >= DATEADD(day, -1, GETDATE())
                ORDER BY
                    ID DESC;
            " in
        r ← execute cursor sql_query [];
        mret (_format_results r))
       is_pyodbc_Error
       (λ ex, st_error ("Erro ao buscar os últimos erros da MCLOG: " +:+ exn_str ex);;
              mret []))
    (close cursor).

End Mclog.

Module Mix100.

Definition find_by_nr_controle (self : Mix100Repository) (nr_controle : string)
    : py (list row) :=
  if str_falsy nr_controle then mret [] else
  cursor ← cursor (mix100_connection self);
  try_finally
    (try_except
       (let sql_query := "SELECT TOP (500) * FROM [indigo_pix].[dbo].[MIX100] WITH (NOLOCK) WHERE NR_CONTROLE = ? ORDER BY id DESC" in
        r ← execute cursor sql_query [PyStr nr_controle];
        mret (_format_results r))
       is_pyodbc_Error
       (λ ex, st_error ("Erro ao executar a busca em MIX100: " +:+ exn_str ex);; mret []))
    (close cursor).

Definition find_by_endtoendiddevolucao (self : Mix100Repository) (endtoendid : string)
    : py (list row) :=
  if str_falsy endtoendid then mret [] else
  cursor ← cursor (mix100_connection self);
  try_finally
    (try_except
       (let sql_query := "SELECT TOP (500) * FROM [indigo_pix].[dbo].[MIX100] WITH (NOLOCK) WHERE ENDTOENDIDDEVOLUCAO = ? ORDER BY id DESC" in
        r ← execute cursor sql_query [PyStr endtoendid];
        mret (_format_results r))
       is_pyodbc_Error
       (λ ex, st_error ("Erro ao executar a busca por EndToEndId Devolução: "
                        +:+ exn_str ex);;
              mret []))
    (close cursor).

End Mix100.

Module MclogCct.

Definition find_by_kyt_id (self : MclogCctRepository) (kyt_id : string) : py (list row) :=
  if str_falsy kyt_id then mret [] else
  cursor ← cursor (mclog_cct_connection self);
  try_finally
    (try_except
       (let param_value := "%" +:+ kyt_id +:+ "%" in
        let sql_query := "SELECT TOP (5000) * FROM [indigo_cct].[dbo].[MCLOG] WITH (NOLOCK) WHERE OUTRAS_INFO LIKE ? ORDER BY id DESC" in
        r ← execute cursor sql_query [PyStr param_value];
        mret (_format_results r))
       is_pyodbc_Error
       (λ ex, st_error ("Erro ao executar a busca por ID KYT: " +:+ exn_str ex);;
              mret []))
    (close cursor).

End MclogCct.

(** ** JSON-or-text renderer *)

(** [json.loads] as a computation: [loads] gives the parsed document, or
    the exception the library raises.  For a text that is not JSON that is
    a [JSONDecodeError]; the library also raises [RecursionError] on a text
    nested too deep and [ValueError] on an integer of too many digits, which
    are exceptions of other classes. *)
Definition json_loads (loads : string → exn + json) (text : string) : py json :=
  match loads text with
  | inr parsed => mret parsed
  | inl e => raise e
  end.

Definition display_json_or_text (loads : string → exn + json) (content : pyval)
    : py unit :=
  if negb (truthy content) || negb (isinstance_str content) then
    st_info "Conteúdo vazio ou não é texto."
  else
    let content := as_str content in
    let json_part :=
      if str_in "{" content then
        let json_start_index := str_find "{" content in
        str_slice_from json_start_index content
      else content in
    try_except
      (parsed_json ← json_loads loads json_part;
       st_json parsed_json)
      is_JSONDecodeError
      (λ _, st_code content).

(** The part of a text handed to [json.loads]. *)
Definition json_part_of (content : string) : string :=
  if str_in "{" content then str_slice_from (str_find "{" content) content else content.

(** ** Connection guardian *)

(** The value of [st.session_state.repos] where it is read: an attribute
    never set raises [AttributeError]. *)
Definition read_repos : py (option repos) :=
  r ← get_repos;
  match r with
  | Holds r => mret (Some r)
  | SetNone => mret None
  | Unset => raise (Exn OtherException "AttributeError: st.session_state has no attribute repos")
  end.

Definition init_connection : py (option repos) :=
  try_except
    (connection ← connect;
     set_db_connection (Holds connection);;
     set_repos (Holds {| tixlog := NewTixlogRepository connection;
                         mclog := NewMclogRepository connection;
                         mix100 := NewMix100Repository connection;
                         mclog_cct := NewMclogCctRepository connection |});;
     read_repos)
    is_Exception
    (λ e,
       st_error ("Erro ao conectar ao banco de dados: " +:+ exn_str e);;
       st_warning "Verifique se o arquivo `.streamlit/secrets.toml` está configurado corretamente.";;
       set_db_connection SetNone;;
       set_repos SetNone;;
       mret None).

(** In [check_connection] the local [cursor] is bound by the first
    statement of the [try].  That statement fails only when
    [db_connection] holds no connection; then [cursor] is still [None], the
    [AttributeError] is not among the classes caught, and the [finally]
    closes nothing. *)
Definition check_connection : py (option repos) :=
  r ← get_repos;
  match r with
  | Unset | SetNone => init_connection
  | Holds _ =>
    c ← get_db_connection;
    match c with
    | Holds c =>
      cursor ← cursor c;
      try_finally
        (try_except
           (execute cursor "SELECT 1" [];;
            read_repos)
           is_Operational_or_Programming
           (λ e,
              st_warning "Conexão com o banco de dados perdida. Tentando reconectar...";;
              init_connection))
        (close cursor)
    | _ => raise (Exn OtherException "AttributeError: db_connection has no attribute cursor")
    end
  end.

(** ** Search page: the TIXLOG modes *)

(** [[line.strip() for line in input_value.split('\n') if line.strip()]]. *)
Definition nr_list_of (input_value : string) : list string :=
  strip <$> filter (λ line, strip line ≠ "") (str_split "010" input_value).

(** [pd.DataFrame(records)]: the frame has a column for every key of every
    record, and a record without a key has a missing value there.  Missing
    values and [None] are one and the same to the frame; they are written
    [PyNone].  Other values are kept as they are. *)
Definition frame_columns (records : list row) : gset string :=
  ⋃ (dom <$> records).

Definition frame_row (columns : gset string) (record : row) : row :=
  record ∪ gset_to_gmap PyNone columns.

Definition DataFrame (records : list row) : list row :=
  frame_row (frame_columns records) <$> records.

(** [frame.drop_duplicates()]: of rows equal in every column the first is
    kept.  [seen] holds the rows passed so far. *)
Fixpoint drop_duplicates_go (seen : list row) (frame : list row) : list row :=
  match frame with
  | [] => []
  | r :: frame' =>
    if decide (r ∈ seen) then drop_duplicates_go seen frame'
    else r :: drop_duplicates_go (r :: seen) frame'
  end.

Definition drop_duplicates (frame : list row) : list row := drop_duplicates_go [] frame.

(** [frame.to_dict('records')]. *)
Definition to_dict_records (frame : list row) : list row := frame.

Definition TIXLOG_NR_CONTROLE : string := "TIXLOG: Por NR_CONTROLE".
Definition TIXLOG_IDREQJDPI : string := "TIXLOG: Por IDREQJDPI".
Definition TIXLOG_LISTA : string := "TIXLOG: Por Lista de NR_CONTROLE (IN)".
Definition TIXLOG_JSON : string := "TIXLOG: Por Conteúdo no JSON (LIKE)".
Definition TIXLOG_ORIGEM : string := "TIXLOG: Por Origem".

(** The primary lookup of the branch [search_type.startswith("TIXLOG")]. *)
Definition tixlog_primary_results (repos : repos) (search_type input_value : string)
    : py (list row) :=
  if bool_decide (search_type = TIXLOG_NR_CONTROLE) then
    Tixlog.find_by_nr_controle (tixlog repos) input_value
  else if bool_decide (search_type = TIXLOG_IDREQJDPI) then
    Tixlog.find_by_idreqjdpi (tixlog repos) input_value
  else if bool_decide (search_type = TIXLOG_LISTA) then
    let nr_list := nr_list_of input_value in
    match nr_list with
    | [] => mret []
    | _ => Tixlog.find_by_nr_controle_in (tixlog repos) nr_list
    end
  else if bool_decide (search_type = TIXLOG_JSON) then
    Tixlog.find_by_json_content (tixlog repos) input_value
  else if bool_decide (search_type = TIXLOG_ORIGEM) then
    Tixlog.find_by_origem (tixlog repos) input_value
  else mret [].

(** The complementary lookup of the same branch. *)
Definition tixlog_complementary_results (repos : repos) (search_type input_value : string)
    : py (list row) :=
  if bool_decide (search_type = TIXLOG_LISTA) then
    let nr_list := nr_list_of input_value in
    match nr_list with
    | [] => mret []
    | _ =>
      sublists ← mapM (λ item, Mclog.find_by_outras_info (mclog repos) item) nr_list;
      let temp_complementary := concat sublists in
      match temp_complementary with
      | [] => mret []
      | _ => mret (to_dict_records (drop_duplicates (DataFrame temp_complementary)))
      end
    end
  else Mclog.find_by_outras_info (mclog repos) input_value.

(** ** The single-value search operations *)

Inductive single_value_search : Type :=
| TixlogByNrControle
| TixlogByIdreqjdpi
| TixlogByJsonContent
| TixlogByOrigem
| TixlogTransactionSummary
| MclogByOutrasInfo
| Mix100ByNrControle
| Mix100ByEndToEndIdDevolucao
| MclogCctByKytId.

Definition run_search (repos : repos) (op : single_value_search) (input : string)
    : py (list row) :=
  match op with
  | TixlogByNrControle => Tixlog.find_by_nr_controle (tixlog repos) input
  | TixlogByIdreqjdpi => Tixlog.find_by_idreqjdpi (tixlog repos) input
  | TixlogByJsonContent => Tixlog.find_by_json_content (tixlog repos) input
  | TixlogByOrigem => Tixlog.find_by_origem (tixlog repos) input
  | TixlogTransactionSummary => Tixlog.get_transaction_summary (tixlog repos) input
  | MclogByOutrasInfo => Mclog.find_by_outras_info (mclog repos) input
  | Mix100ByNrControle => Mix100.find_by_nr_controle (mix100 repos) input
  | Mix100ByEndToEndIdDevolucao => Mix100.find_by_endtoendiddevolucao (mix100 repos) input
  | MclogCctByKytId => MclogCct.find_by_kyt_id (mclog_cct repos) input
  end.

(** The events a computation adds to the trace. *)
Definition new_events (w w' : world) : list event := drop (length (trace w)) (trace w').

(** ** Direction inference: what the SQL text computes *)

(** The columns of a TIXLOG row the inference reads; [None] is NULL. *)
Record tixlog_row : Type := TixlogRow {
  NR_CONTROLE : option string;
  USUARIO : option string;
  DESCRICAO : option string
}.

(** What the collation of the database decides: equality of texts, the
    [LIKE] match of a text against a pattern, and the order [MAX] follows. *)
Record collation : Type := Collation {
  sql_eq : string → string → bool;
  sql_like : string → string → bool;
  sql_compare : string → string → comparison
}.

(** Truth values of SQL; [None] is UNKNOWN. *)
Definition sql_or (a b : option bool) : option bool :=
  match a, b with
  | Some true, _ | _, Some true => Some true
  | Some false, Some false => Some false
  | _, _ => None
  end.

Definition is_true (a : option bool) : bool :=
  match a with
  | Some true => true
  | _ => false
  end.

Section direction.
Context (co : collation).

(** [column = 'text'] and [column LIKE 'pattern']: UNKNOWN on NULL. *)
Definition eq_text (column : option string) (text : string) : option bool :=
  (λ v, sql_eq co v text) <$> column.

Definition like_text (column : option string) (pattern : string) : option bool :=
  (λ v, sql_like co v pattern) <$> column.

(** The two [WHEN] conditions of the [CASE]. *)
Definition when_out (r : tixlog_row) : bool :=
  is_true (sql_or (eq_text (USUARIO r) "envia_pix_prod") (like_text (DESCRICAO r) "%DÉBITO%")).

Definition when_in (r : tixlog_row) : bool :=
  is_true (sql_or (eq_text (USUARIO r) "recebe_pix_prod") (like_text (DESCRICAO r) "%CRÉDITO%")).

(** The [CASE]: the first [WHEN] that holds decides. *)
Definition case_label (r : tixlog_row) : string :=
  if when_out r then "OUT"
  else if when_in r then "IN"
  else "Indefinido".

(** [MAX] over texts: NULL over no row. *)
Definition max_text (a b : string) : string :=
  match sql_compare co a b with
  | Lt => b
  | _ => a
  end.

Definition MAX (texts : list string) : option string :=
  match texts with
  | [] => None
  | t :: texts' => Some (foldl max_text t texts')
  end.

(** [WHERE NR_CONTROLE = ?]. *)
Definition rows_of (table : list tixlog_row) (nr_controle : string) : list tixlog_row :=
  filter (λ r, is_true (eq_text (NR_CONTROLE r) nr_controle) = true) table.

(** [OperationType_CTE] of [get_transaction_summary]: the rows that pass
    the [WHERE] are all equal to the parameter, so [GROUP BY] makes one
    group of them, and no group when there is none. *)
Definition OperationType_CTE (table : list tixlog_row) (nr_controle : string)
    : option string :=
  match rows_of table nr_controle with
  | [] => None
  | group => MAX (case_label <$> group)
  end.

(** [ISNULL(ot.Tipo_Operacao, 'Indefinido')]. *)
Definition ISNULL (v : option string) (replacement : string) : string :=
  default replacement v.

(** The column [Tipo_Operacao] of the summary: [TransactionAggregation_CTE]
    has a row exactly when some row passes the same [WHERE], and the
    [LEFT JOIN] puts the row of [OperationType_CTE] beside it.  [None]: the
    summary has no row.  The performance summary has the same two
    expressions and computes the column for every NR_CONTROLE of its
    population, which stands for [table] there. *)
Definition Tipo_Operacao (table : list tixlog_row) (nr_controle : string) : option string :=
  match rows_of table nr_controle with
  | [] => None
  | _ => Some (ISNULL (OperationType_CTE table nr_controle) "Indefinido")
  end.

(** The collation orders the three labels as they are listed here, which
    is their order in the collations of SQL Server. *)
Definition labels : list string := ["IN"; "Indefinido"; "OUT"].

Definition orders_labels : Prop :=
  ∀ i j a b, labels !! i = Some a → labels !! j = Some b →
             (sql_compare co a b = Lt ↔ i < j).

End direction.

(** The binary collation: texts compare byte by byte, and a pattern
    [%text%] matches what contains [text]. *)
Fixpoint str_prefix (p s : string) : bool :=
  match p, s with
  | "", _ => true
  | String a p', String b s' => Ascii.eqb a b && str_prefix p' s'
  | _, _ => false
  end.

Fixpoint str_contains (p s : string) : bool :=
  str_prefix p s ||
  match s with
  | "" => false
  | String _ s' => str_contains p s'
  end.

Definition binary_like (v pattern : string) : bool :=
  match pattern with
  | String "%" inner =>
    match String.rev inner with
    | String "%" rtext => str_contains (String.rev rtext) v
    | _ => false
    end
  | _ => false
  end.

Definition binary_collation : collation :=
  {| sql_eq := String.eqb; sql_like := binary_like; sql_compare := String.compare |}.

(** ** A reader for JSON texts

    It stands for [json.loads] where the renderer is run on a concrete
    text.  It reads the grammar of RFC 8259 with the escapes of one
    character; an escape [\uXXXX] is not read, and numbers keep their text.
    Like the library it gives up on a text nested deeper than the
    interpreter's recursion limit and on an integer of more digits than the
    interpreter converts (Python 3.11), each with the exception of the
    library.  [fuel] bounds the number of steps, [room] the nesting. *)

Definition is_json_ws (c : ascii) : bool :=
  let n := nat_of_ascii c in
  (n =? 32) || (n =? 9) || (n =? 10) || (n =? 13).

Fixpoint skip_ws (s : string) : string :=
  match s with
  | String c s' => if is_json_ws c then skip_ws s' else s
  | "" => ""
  end.

Definition is_digit (c : ascii) : bool :=
  let n := nat_of_ascii c in (48 <=? n) && (n <=? 57).

(** The digits at the head of [s], last first in [acc], and the rest. *)
Fixpoint read_digits (acc : string) (s : string) : string * string :=
  match s with
  | String c s' => if is_digit c then read_digits (String c acc) s' else (acc, s)
  | "" => (acc, "")
  end.

Definition unescape (c : ascii) : option ascii :=
  let n := nat_of_ascii c in
  if n =? 34 then Some "034"%char
  else if n =? 92 then Some "092"%char
  else if n =? 47 then Some "/"%char
  else if n =? 98 then Some "008"%char
  else if n =? 102 then Some "012"%char
  else if n =? 110 then Some "010"%char
  else if n =? 114 then Some "013"%char
  else if n =? 116 then Some "009"%char
  else None.

(** A string after its opening quote; [acc] holds it last byte first. *)
Fixpoint read_string (acc : string) (s : string) : option (string * string) :=
  match s with
  | "" => None
  | String c s' =>
    if nat_of_ascii c =? 34 then Some (String.rev acc, s')
    else if nat_of_ascii c =? 92 then
      match s' with
      | "" => None
      | String e s'' =>
        match unescape e with
        | Some d => read_string (String d acc) s''
        | None => None
        end
      end
    else if nat_of_ascii c <? 32 then None
    else read_string (String c acc) s'
  end.

(** A number: its sign, integer part, fraction and exponent. *)
Definition read_number (s : string) : option (string * string) :=
  let '(sign, s) :=
    match s with
    | String "-" s' => ("-", s')
    | _ => ("", s)
    end in
  let '(int_rev, s) := read_digits "" s in
  match String.rev int_rev with
  | "" => None
  | String "0" (String _ _) => None
  | int_part =>
    let '(frac, s) :=
      match s with
      | String "." s' =>
        let '(d, r) := read_digits "" s' in
        (Some (String.rev d), r)
      | _ => (None, s)
      end in
    match frac with
    | Some "" => None
    | _ =>
      let frac_text := match frac with Some d => "." +:+ d | None => "" end in
      let '(exp, s) :=
        match s with
        | String e s' =>
          if (nat_of_ascii e =? 101) || (nat_of_ascii e =? 69) then
            let '(esign, s'') :=
              match s' with
              | String "+" r => ("+", r)
              | String "-" r => ("-", r)
              | _ => ("", s')
              end in
            let '(d, r) := read_digits "" s'' in
            (Some (String e (esign +:+ String.rev d), String.rev d), r)
          else (None, s)
        | "" => (None, s)
        end in
      match exp with
      | Some (_, "") => None
      | Some (exp_text, _) => Some (sign +:+ int_part +:+ frac_text +:+ exp_text, s)
      | None => Some (sign +:+ int_part +:+ frac_text, s)
      end
    end
  end.

(** What reading a value gives: the value and the rest of the text, or
    the reason for giving up. *)
Inductive scanned (A : Type) : Type :=
| Scanned (a : A) (rest : string)
| Malformed
| TooDeep (container : string)
| TooLong.
Arguments Scanned {A} a rest.
Arguments Malformed {A}.
Arguments TooDeep {A} container.
Arguments TooLong {A}.

(** [sys.getrecursionlimit()] and [sys.get_int_max_str_digits()], as the
    interpreter starts.  The frames already on the stack leave less room
    than the first. *)
Definition recursion_limit : nat := 1000.
Definition int_max_str_digits : nat := 4300.

(** The digits of a literal that is an integer, and [None] for a literal
    with a fraction or an exponent. *)
Fixpoint integer_digits (literal : string) : option nat :=
  match literal with
  | "" => Some 0
  | String c literal' =>
    if is_digit c then S <$> integer_digits literal'
    else if nat_of_ascii c =? 45 then integer_digits literal'
    else None
  end.

Definition exceeds_int_digits (literal : string) : bool :=
  match integer_digits literal with
  | Some n => int_max_str_digits <? n
  | None => false
  end.

Fixpoint read_value (fuel room : nat) (s : string) : scanned json :=
  match fuel with
  | 0 => Malformed
  | S fuel =>
    match skip_ws s with
    | String "n" (String "u" (String "l" (String "l" r))) => Scanned JNull r
    | String "t" (String "r" (String "u" (String "e" r))) => Scanned (JBool true) r
    | String "f" (String "a" (String "l" (String "s" (String "e" r)))) =>
      Scanned (JBool false) r
    | String "[" r =>
      match room with
      | 0 => TooDeep "array"
      | S room =>
        match skip_ws r with
        | String "]" r' => Scanned (JArray []) r'
        | _ => read_items fuel room [] r
        end
      end
    | String "{" r =>
      match room with
      | 0 => TooDeep "object"
      | S room =>
        match skip_ws r with
        | String "}" r' => Scanned (JObject []) r'
        | _ => read_members fuel room [] r
        end
      end
    | String c r =>
      if nat_of_ascii c =? 34 then
        match read_string "" r with
        | Some (text, r') => Scanned (JString text) r'
        | None => Malformed
        end
      else
        match read_number (String c r) with
        | Some (literal, r') =>
          if exceeds_int_digits literal then TooLong else Scanned (JNumber literal) r'
        | None => Malformed
        end
    | "" => Malformed
    end
  end
with read_items (fuel room : nat) (acc : list json) (s : string) : scanned json :=
  match fuel with
  | 0 => Malformed
  | S fuel =>
    match read_value fuel room s with
    | Scanned v r =>
      match skip_ws r with
      | String "," r' => read_items fuel room (v :: acc) r'
      | String "]" r' => Scanned (JArray (reverse (v :: acc))) r'
      | _ => Malformed
      end
    | failure => failure
    end
  end
with read_members (fuel room : nat) (acc : list (string * json)) (s : string)
    : scanned json :=
  match fuel with
  | 0 => Malformed
  | S fuel =>
    match skip_ws s with
    | String q r =>
      if nat_of_ascii q =? 34 then
        match read_string "" r with
        | Some (key, r') =>
          match skip_ws r' with
          | String ":" r'' =>
            match read_value fuel room r'' with
            | Scanned v r3 =>
              match skip_ws r3 with
              | String "," r4 => read_members fuel room ((key, v) :: acc) r4
              | String "}" r4 => Scanned (JObject (reverse ((key, v) :: acc))) r4
              | _ => Malformed
              end
            | failure => failure
            end
          | _ => Malformed
          end
        | None => Malformed
        end
      else Malformed
    | "" => Malformed
    end
  end.

Definition recursion_error (container : string) : exn :=
  Exn OtherException
      ("RecursionError: maximum recursion depth exceeded while decoding a JSON "
       +:+ container +:+ " from a unicode string").

Definition digits_error : exn :=
  Exn OtherException
      "ValueError: Exceeds the limit (4300 digits) for integer string conversion".

Definition read_json (text : string) : exn + json :=
  match read_value (2 * String.length text + 2) recursion_limit text with
  | Scanned v r =>
    match skip_ws r with
    | "" => inr v
    | _ => inl (Exn JSONDecodeError "Extra data")
    end
  | Malformed => inl (Exn JSONDecodeError "Expecting value")
  | TooDeep container => inl (recursion_error container)
  | TooLong => inl digits_error
  end.

(** [c * n]: the character [c], [n] times. *)
Fixpoint str_repeat (c : ascii) (n : nat) : string :=
  match n with
  | 0 => ""
  | S n => String c (str_repeat c n)
  end.

(** A text of brackets nested deeper than the recursion limit, and an
    object with an integer of more digits than the interpreter converts. *)
Definition deep_text : string := str_repeat "[" 1001.
Definition long_integer_text : string :=
  "{" +:+ String "034" "" +:+ "a" +:+ String "034" "" +:+ ": "
  +:+ str_repeat "1" 4301 +:+ "}".

(** The double quote, and the text [prefix = {"a":1}] of the docstring. *)
Definition dq : string := String "034" "".
Definition bare_json : string := "{" +:+ dq +:+ "a" +:+ dq +:+ ":1}".

(** ** Vocabulary of the statements *)

(** The world after the events [evs] have happened in [w]. *)
Definition after (w : world) (evs : list event) : world :=
  World (trace w ++ evs) (db_connection w) (session_repos w).

(** The repositories built on one connection. *)
Definition repos_on (c : connection) : repos :=
  {| tixlog := NewTixlogRepository c;
     mclog := NewMclogRepository c;
     mix100 := NewMix100Repository c;
     mclog_cct := NewMclogCctRepository c |}.

(** How often a computation that led from [w] to [w'] called
    [pyodbc.connect], and the queries it executed. *)
Definition connect_attempts (w w' : world) : nat :=
  length (filter (λ ev, is_connect ev = true) (new_events w w')).


(** A blank text: nothing is left of it once stripped. *)
Definition is_blank (s : string) : Prop := strip s = "".

(** A driver whose link is down: every query raises [OperationalError]. *)
Definition link_down : exn := Exn OperationalError "08S01 Communication link failure".

Definition driver_link_down : driver :=
  Driver (λ _, inr 0) (λ _ _ _ _, inl link_down).

(** A driver that answers every query with one row of two columns. *)
Definition driver_one_row : driver :=
  Driver (λ _, inr 0)
    (λ _ _ _ _, inr (CursorResult [("ID", "int"); ("OUTRAS_INFO", "str")]
                       [[PyInt 1; PyStr "conta 42"]])).

(** A world before the first access. *)
Definition fresh_world : world := World [] Unset Unset.

(** What a call of [init_connection] leaves when it starts on the trace
    [tr] and [pyodbc.connect] gives [answer]: the repositories on the new
    connection, stored in the session, or [None], the error shown and the
    session cleared. *)
Definition established (tr : list event) (answer : exn + connection)
    : outcome (option repos) * world :=
  match answer with
  | inr c =>
    (Returns (Some (repos_on c)),
     World (tr ++ [EvConnect]) (Holds c) (Holds (repos_on c)))
  | inl e =>
    (Returns None,
     World (tr ++ [EvConnect;
                   EvUi (StError ("Erro ao conectar ao banco de dados: " +:+ exn_str e));
                   EvUi (StWarning "Verifique se o arquivo `.streamlit/secrets.toml` está configurado corretamente.")])
       SetNone SetNone)
  end.

(** The liveness probe and the notice of a lost connection. *)
Definition probe (c : connection) : list event :=
  [EvCursor c; EvExecute c "SELECT 1" []].

Definition lost_notice : event :=
  EvUi (StWarning "Conexão com o banco de dados perdida. Tentando reconectar...").

(** A driver whose probe fails with the base class [pyodbc.Error]. *)
Definition general_error : exn := Exn PyodbcError "HY000 General error".

Definition driver_general_error : driver :=
  Driver (λ _, inr 1) (λ _ _ _ _, inl general_error).

(** A driver that lost its link once: the first query raises
    [OperationalError], the queries after a new [connect] succeed. *)
Definition driver_reconnects : driver :=
  Driver (λ _, inr 1)
    (λ tr _ _ _,
       if existsb is_connect tr then inr (CursorResult [("", "int")] [[PyInt 1]])
       else inl link_down).

(** A session that holds connection 0 and its repositories. *)
Definition connected_world : world := World [] (Holds 0) (Holds (repos_on 0)).

(** The guarded query: [cursor(); try: execute; format except pyodbc.Error:
    st.error; return [] finally: close]. *)
Definition guarded_query (c : connection) (sql : string) (params : list pyval)
    (notice : string) : py (list row) :=
  cursor ← cursor c;
  try_finally
    (try_except
       (r ← execute cursor sql params;
        mret (_format_results r))
       is_pyodbc_Error
       (λ ex, st_error (notice +:+ exn_str ex);; mret []))
    (close cursor).


(** A driver that raises nothing but the classes of [pyodbc.Error]. *)
Definition raises_only_pyodbc (drv : driver) : Prop :=
  ∀ tr c sql params e,
    cursor_execute drv tr c sql params = inl e → is_pyodbc_Error e = true.

(** The greatest label of a group: OUT when some row is OUT, else
    Indefinido when some row is Indefinido, else IN. *)
Definition greatest (texts : list string) : string :=
  if decide ("OUT" ∈ texts) then "OUT"
  else if decide ("Indefinido" ∈ texts) then "Indefinido"
  else "IN".

(** Two lines with the same number, the second with blanks around it. *)
Definition two_lines : string := "42" +:+ String "010" " 42 ".

(** A text of white space alone, with a no-break space (U+00A0) and an em
    space (U+2003) in it. *)
Definition unicode_blank : string :=
  " " +:+ String "194" (String "160" "") +:+ String "009" ""
  +:+ String "226" (String "128" (String "131" "")).

(** ** All the repository operations *)

(** A call of a repository method, with its arguments. *)
Inductive operation : Type :=
| Search (op : single_value_search) (input : string)
| TixlogByNrControleIn (nr_controles : list string)
| TixlogNewEntriesPerMinute
| TixlogPerformanceSummary (mode : string)
| MclogOperationsPerMinute (hours_ago : Z)
| MclogLatestErrors.

Definition run_operation (repos : repos) (op : operation) : py (list row) :=
  match op with
  | Search op input => run_search repos op input
  | TixlogByNrControleIn nr_controles =>
    Tixlog.find_by_nr_controle_in (tixlog repos) nr_controles
  | TixlogNewEntriesPerMinute => Tixlog.get_new_entries_per_minute (tixlog repos)
  | TixlogPerformanceSummary mode =>
    Tixlog.get_performance_summary_data (tixlog repos) mode
  | MclogOperationsPerMinute hours_ago =>
    Mclog.get_operations_per_minute (mclog repos) hours_ago
  | MclogLatestErrors => Mclog.get_latest_errors (mclog repos)
  end.

(** The operations that go through [TixlogRepository._execute_query]. *)
Definition uses_helper (op : operation) : bool :=
  match op with
  | Search TixlogByNrControle _ | Search TixlogByIdreqjdpi _
  | Search TixlogByOrigem _ | TixlogByNrControleIn _ => true
  | _ => false
  end.

(** The query of the helper: [cursor(); try: execute; format finally:
    close]. *)
Definition helper_query (c : connection) (sql : string) (params : list pyval)
    : py (list row) :=
  cursor ← cursor c;
  try_finally
    (r ← execute cursor sql params;
     mret (_format_results r))
    (close cursor).

(** The events of one query that ran to its end, [notice] being what was
    shown between the query and the closing of the cursor. *)
Definition query_events (c : connection) (sql : string) (params : list pyval)
    (notice : list event) : list event :=
  [EvCursor c; EvExecute c sql params] ++ notice ++ [EvClose c].

Definition is_ui (ev : event) : bool :=
  match ev with
  | EvUi _ => true
  | _ => false
  end.

(** A driver that finds nothing: every query succeeds and has no row. *)
Definition answers_no_rows (drv : driver) : Prop :=
  ∀ tr c sql params,
    ∃ r, cursor_execute drv tr c sql params = inr r ∧ fetchall r = [].

Definition driver_no_rows : driver :=
  Driver (λ _, inr 0) (λ _ _ _ _, inr (CursorResult [("ID", "int")] [])).

(** ** The session over the runs of the script *)

(** The repositories of the session are those built on its connection. *)
Definition session_consistent (w : world) : Prop :=
  ∀ r, session_repos w = Holds r → ∃ c, db_connection w = Holds c ∧ r = repos_on c.

(** What the caller of [check_connection] is handed, read off the session. *)
Definition session_result (w : world) : option repos :=
  match session_repos w with
  | Holds r => Some r
  | _ => None
  end.

(** The script runs [check_connection] once at each run; [drvs] gives the
    driver of each run. *)
Definition run_cycles (drvs : list driver) (w : world) : world :=
  foldl (λ w drv, (check_connection drv w).2) w drvs.

(** ** Search page: the dispatch *)

Definition MIX100_360 : string := "MIX100: Por NR_CONTROLE (Busca 360º)".
Definition MIX100_ENDTOEND : string := "MIX100: Por EndToEndId Devolução".
Definition MCLOG_CCT_KYT : string := "MCLOG CCT: Por ID da Transação KYT".
Definition MCLOG_CAD : string := "MCLOG CAD: Busca Geral em OUTRAS_INFO".

(** The nine entries of the select box. *)
Definition search_types : list string :=
  [MIX100_360; MIX100_ENDTOEND; MCLOG_CCT_KYT; TIXLOG_NR_CONTROLE; TIXLOG_IDREQJDPI;
   TIXLOG_LISTA; TIXLOG_JSON; TIXLOG_ORIGEM; MCLOG_CAD].

Inductive details_func : Type :=
| display_mix100_details
| display_tixlog_details
| display_mclog_cct_details.

(** The drawing of the page is left to a [renderer]: what the body of
    [display_results] does with results that are not empty, and what the
    summary block does with a summary that is not empty.  Both may show
    widgets and may raise. *)
Record renderer : Type := Renderer {
  render_summary : list row → py unit;
  render_results : string → list row → option details_func → py unit
}.

(** [display_results]: nothing is drawn for the empty list. *)
Definition display_results (ui : renderer) (title : string) (results : list row)
    (details : option details_func) : py unit :=
  match results with
  | [] => mret ()
  | _ => render_results ui title results details
  end.

(** The block [if summary_data: ...]. *)
Definition display_summary (ui : renderer) (summary_data : list row) : py unit :=
  match summary_data with
  | [] => mret ()
  | _ => render_summary ui summary_data
  end.

Definition is_empty {A} (l : list A) : bool :=
  match l with
  | [] => true
  | _ => false
  end.

Definition no_results_notice : event := EvUi (StInfo "Nenhum resultado encontrado.").

(** The block [if search_clicked and repos: ...]. *)
Definition search (ui : renderer) (search_clicked : bool) (repos : option repos)
    (search_type input_value : string) : py unit :=
  match search_clicked, repos with
  | true, Some repos =>
    (if bool_decide (search_type = MIX100_360)
        || bool_decide (search_type = TIXLOG_NR_CONTROLE) then
       summary_data ← Tixlog.get_transaction_summary (tixlog repos) input_value;
       display_summary ui summary_data
     else mret ());;
    if bool_decide (search_type = MIX100_360) then
      mix100_results ← Mix100.find_by_nr_controle (mix100 repos) input_value;
      display_results ui "Resultados em MIX100" mix100_results
        (Some display_mix100_details);;
      tixlog_results ← Tixlog.find_by_nr_controle (tixlog repos) input_value;
      display_results ui "Resultados Complementares em TIXLOG" tixlog_results
        (Some display_tixlog_details);;
      mclog_results ← Mclog.find_by_outras_info (mclog repos) input_value;
      display_results ui "Resultados Complementares em MCLOG CAD" mclog_results None;;
      if is_empty mix100_results && is_empty tixlog_results && is_empty mclog_results
      then st_info "Nenhum resultado encontrado." else mret ()
    else if bool_decide (search_type = MIX100_ENDTOEND) then
      mix100_results ← Mix100.find_by_endtoendiddevolucao (mix100 repos) input_value;
      display_results ui "Resultados em MIX100" mix100_results
        (Some display_mix100_details);;
      if is_empty mix100_results then st_info "Nenhum resultado encontrado."
      else mret ()
    else if bool_decide (search_type = MCLOG_CCT_KYT) then
      kyt_results ← MclogCct.find_by_kyt_id (mclog_cct repos) input_value;
      display_results ui "Resultados em MCLOG CCT" kyt_results
        (Some display_mclog_cct_details);;
      if is_empty kyt_results then st_info "Nenhum resultado encontrado."
      else mret ()
    else if str_prefix "TIXLOG" search_type then
      primary_results ← tixlog_primary_results repos search_type input_value;
      display_results ui "Resultados Principais em TIXLOG" primary_results
        (Some display_tixlog_details);;
      complementary_results ← tixlog_complementary_results repos search_type input_value;
      display_results ui "Resultados Complementares em MCLOG CAD"
        complementary_results None;;
      if is_empty primary_results && is_empty complementary_results
      then st_info "Nenhum resultado encontrado." else mret ()
    else if bool_decide (search_type = MCLOG_CAD) then
      mclog_results ← Mclog.find_by_outras_info (mclog repos) input_value;
      display_results ui "Resultados em MCLOG CAD" mclog_results None;;
      if is_empty mclog_results then st_info "Nenhum resultado encontrado."
      else mret ()
    else mret ()
  | _, _ => mret ()
  end.

(** A renderer that raises whenever it is asked to draw. *)
Definition renderer_raises : renderer :=
  Renderer (λ _, raise (Exn OtherException "drawn"))
           (λ _ _ _, raise (Exn OtherException "drawn")).

(** ** Status of a MIX100 message *)



(** A driver that reaches no server: every attempt to connect raises. *)
Definition no_server : exn := Exn OperationalError "08001 Unable to connect".

Definition driver_no_server : driver :=
  Driver (λ _, inl no_server) (λ _ _ _ _, inl link_down).

(** Cursors opened and cursors closed, counted in a list of events. *)
Definition is_cursor (ev : event) : bool :=
  match ev with
  | EvCursor _ => true
  | _ => false
  end.

Definition is_close (ev : event) : bool :=
  match ev with
  | EvClose _ => true
  | _ => false
  end.

Definition opened (evs : list event) : nat :=
  length (filter (λ ev, is_cursor ev = true) evs).

Definition closed (evs : list event) : nat :=
  length (filter (λ ev, is_close ev = true) evs).

(** * Properties *)

(** ** Facts about [dict] *)

Section dict_facts.
Implicit Types (pairs : list (string * pyval)) (columns : list string)
  (row : list pyval) (d : gmap string pyval).

Lemma dict_snoc pairs k v : dict (pairs ++ [(k, v)]) = <[k := v]> (dict pairs).
Proof. unfold dict. by rewrite foldl_app. Qed.

Lemma dict_nil : dict [] = ∅.
Proof. reflexivity. Qed.

Lemma zip_snoc columns row c v :
  length columns = length row →
  zip (columns ++ [c]) (row ++ [v]) = zip columns row ++ [(c, v)].
Proof.
  revert row. induction columns as [|c' columns IH]; intros [|v' row] Hlen;
    simplify_eq/=; [done|]. f_equal. by apply IH.
Qed.

(** Keys of the dictionary: exactly the names paired with a value. *)
Lemma dict_dom pairs : dom (dict pairs) = list_to_set pairs.*1.
Proof.
  induction pairs as [|[k v] pairs IH] using rev_ind.
  - by rewrite dict_nil, dom_empty_L.
  - rewrite dict_snoc, dom_insert_L, IH, fmap_app. simpl.
    rewrite list_to_set_snoc_L. apply (comm_L (∪)).
Qed.

Lemma dict_zip_dom columns row :
  length columns = length row →
  dom (dict (zip columns row)) = list_to_set columns.
Proof. intros Hlen. rewrite dict_dom, fst_zip; [done|lia]. Qed.

(** The value under a name is the one at the last position bearing it. *)
Lemma dict_zip_lookup_last columns row c i :
  length columns = length row →
  last_position columns c i →
  dict (zip columns row) !! c = row !! i.
Proof.
  revert row i.
  induction columns as [|c' columns IH] using rev_ind; intros row i Hlen [Hi Hlast].
  { by rewrite lookup_nil in Hi. }
  destruct row as [|v row _] using rev_ind.
  { rewrite length_app in Hlen. simpl in Hlen. lia. }
  rewrite !length_app in Hlen. simpl in Hlen.
  assert (length columns = length row) as Hlen' by lia.
  rewrite zip_snoc, dict_snoc by done.
  destruct (decide (i = length columns)) as [->|Hne].
  - rewrite lookup_app_r, Nat.sub_diag in Hi by lia. simplify_eq/=.
    rewrite lookup_insert_eq, Hlen', lookup_app_r, Nat.sub_diag by lia. done.
  - assert (i < length columns) as Hlt.
    { apply lookup_lt_Some in Hi. rewrite length_app in Hi. simpl in Hi. lia. }
    rewrite lookup_app_l in Hi by done.
    assert (c' ≠ c) as Hcc.
    { intros ->. apply (Hlast (length columns)); [done|].
      by rewrite lookup_app_r, Nat.sub_diag by lia. }
    rewrite lookup_insert_ne, lookup_app_l by (done || lia).
    apply IH; [done|]. split; [done|]. intros j Hj Hcj.
    apply (Hlast j Hj). rewrite lookup_app_l; [done|].
    by apply lookup_lt_Some in Hcj.
Qed.

(** Without a repeated name every position is the last one of its name. *)
Lemma NoDup_last_position columns c i :
  NoDup columns → columns !! i = Some c → last_position columns c i.
Proof.
  intros Hnd Hi. split; [done|]. intros j Hj Hcj.
  pose proof (NoDup_lookup _ _ _ _ Hnd Hi Hcj). lia.
Qed.

(** A repeated name leaves fewer keys than there are columns. *)
Lemma dict_zip_size_dup columns row :
  length columns = length row →
  ¬ NoDup columns →
  size (dict (zip columns row)) < length row.
Proof.
  intros Hlen Hdup.
  rewrite <-size_dom, dict_zip_dom, <-Hlen by done.
  assert (list_to_set columns =@{gset string} list_to_set (remove_dups columns))
    as ->.
  { apply set_eq. intros x. by rewrite !elem_of_list_to_set, elem_of_remove_dups. }
  rewrite size_list_to_set by apply NoDup_remove_dups.
  destruct (decide (length (remove_dups columns) < length columns)) as [|Hge]; [done|].
  exfalso. apply Hdup.
  assert (remove_dups columns ⊆+ columns) as Hsub.
  { apply NoDup_submseteq; [apply NoDup_remove_dups|].
    intros x. by rewrite elem_of_remove_dups. }
  assert (remove_dups columns ≡ₚ columns) as <-; [|apply NoDup_remove_dups].
  apply submseteq_length_Permutation; [done|lia].
Qed.

Lemma dict_zip_size_NoDup columns row :
  length columns = length row →
  NoDup columns →
  size (dict (zip columns row)) = length row.
Proof.
  intros Hlen Hnd.
  rewrite <-size_dom, dict_zip_dom, <-Hlen by done.
  by apply size_list_to_set.
Qed.
End dict_facts.

Lemma _format_results_length cursor :
  length (_format_results cursor) = length (fetchall cursor).
Proof. unfold _format_results. by rewrite length_fmap. Qed.

Lemma _format_results_lookup cursor j :
  _format_results cursor !! j
  = (λ row, dict (zip (column_names cursor) row)) <$> fetchall cursor !! j.
Proof. unfold _format_results, column_names. by rewrite list_lookup_fmap. Qed.

(** ** The JSON reader on the texts of the docstring *)

Example read_json_bare : read_json bare_json = inr (JObject [("a", JNumber "1")]).
Proof. reflexivity. Qed.

Example read_json_not :
  read_json "not json" = inl (Exn JSONDecodeError "Expecting value").
Proof. reflexivity. Qed.

(** ** Result formatter *)

(** C2, as amended: when the column names are pairwise distinct and every
    row has one value per column, the formatter returns one dictionary per
    row, in the order of the rows; the dictionary of a row maps the i-th
    column name to the i-th value of the row, and its keys are exactly the
    column names. *)
Theorem format_results_distinct_columns (cursor : cursor_result) :
  NoDup (column_names cursor) →
  (∀ row, row ∈ fetchall cursor → length row = length (column_names cursor)) →
  length (_format_results cursor) = length (fetchall cursor) ∧
  ∀ j row, fetchall cursor !! j = Some row →
    ∃ d, _format_results cursor !! j = Some d ∧
      (∀ i c, column_names cursor !! i = Some c →
              d !! c = row !! i ∧ is_Some (row !! i)) ∧
      (∀ k, is_Some (d !! k) ↔ k ∈ column_names cursor) ∧
      size d = length (column_names cursor).
Proof.
  intros Hnd Hrows. split; [apply _format_results_length|].
  intros j row Hj.
  assert (length (column_names cursor) = length row) as Hlen.
  { symmetry. apply Hrows. by eapply list_elem_of_lookup_2. }
  exists (dict (zip (column_names cursor) row)). split.
  { by rewrite _format_results_lookup, Hj. }
  split; [|split].
  - intros i c Hi. split.
    + apply dict_zip_lookup_last; [done|]. by apply NoDup_last_position.
    + apply lookup_lt_is_Some. rewrite <-Hlen. by eapply lookup_lt_Some.
  - intros k. by rewrite <-elem_of_dom, dict_zip_dom, elem_of_list_to_set.
  - rewrite dict_zip_size_NoDup by done. done.
Qed.

Lemma format_results_distinct_columns_witness :
  let cursor := CursorResult [("ID", "int"); ("ORIGEM", "str")]
                  [[PyInt 2; PyStr "api"]; [PyInt 1; PyStr "job"]] in
  NoDup (column_names cursor) ∧
  (∀ row, row ∈ fetchall cursor → length row = length (column_names cursor)) ∧
  length (_format_results cursor) = length (fetchall cursor).
Proof.
  intros cursor.
  assert (NoDup (column_names cursor)) as Hnd.
  { apply (bool_decide_unpack _). vm_compute. exact I. }
  assert (∀ row, row ∈ fetchall cursor → length row = length (column_names cursor))
    as Hrows.
  { intros row Hrow. apply list_elem_of_In in Hrow. simpl in Hrow.
    destruct Hrow as [<-|[<-|[]]]; reflexivity. }
  split; [exact Hnd|]. split; [exact Hrows|].
  exact (proj1 (format_results_distinct_columns cursor Hnd Hrows)).
Defined.

(** C2 as stated fails when a column name comes twice: the first of the
    two positions is not mapped to its own value. *)
Lemma format_results_repeated_name_counterexample :
  ¬ (∀ cursor : cursor_result,
       (∀ row, row ∈ fetchall cursor → length row = length (column_names cursor)) →
       ∀ j row, fetchall cursor !! j = Some row →
         ∃ d, _format_results cursor !! j = Some d ∧
              ∀ i c, column_names cursor !! i = Some c → d !! c = row !! i).
Proof.
  intros H.
  destruct (H (CursorResult [("a", "int"); ("a", "int")] [[PyInt 1; PyInt 2]]))
    with (j := 0) (row := [PyInt 1; PyInt 2]) as (d & Hd & Hcols).
  - intros row Hrow. apply list_elem_of_In in Hrow. simpl in Hrow.
    destruct Hrow as [<-|[]]. reflexivity.
  - reflexivity.
  - specialize (Hcols 0 "a" eq_refl).
    vm_compute in Hd. injection Hd as <-. vm_compute in Hcols. discriminate.
Qed.

(** C9: for a row with one value per column the dictionary has one key per
    distinct column name, each bound to the value at the last position
    that bears the name; when a name is repeated the dictionary has fewer
    entries than the row has values. *)
Theorem format_results_repeated_columns (cursor : cursor_result) (j : nat)
    (row : list pyval) :
  fetchall cursor !! j = Some row →
  length row = length (column_names cursor) →
  ∃ d, _format_results cursor !! j = Some d ∧
    dom d = list_to_set (column_names cursor) ∧
    (∀ c i, last_position (column_names cursor) c i → d !! c = row !! i) ∧
    (¬ NoDup (column_names cursor) → size d < length row).
Proof.
  intros Hj Hlen. exists (dict (zip (column_names cursor) row)). split.
  { by rewrite _format_results_lookup, Hj. }
  split; [by apply dict_zip_dom|]. split.
  - intros c i Hlast. by apply dict_zip_lookup_last.
  - intros Hdup. by apply dict_zip_size_dup.
Qed.

Lemma format_results_repeated_columns_witness :
  let cursor := CursorResult [("ID", "int"); ("NOME", "str"); ("ID", "int")]
                  [[PyInt 1; PyStr "a"; PyInt 9]] in
  fetchall cursor !! 0 = Some [PyInt 1; PyStr "a"; PyInt 9] ∧
  length [PyInt 1; PyStr "a"; PyInt 9] = length (column_names cursor) ∧
  ∃ d, _format_results cursor !! 0 = Some d ∧
    dom d = list_to_set (column_names cursor) ∧
    (∀ c i, last_position (column_names cursor) c i →
            d !! c = [PyInt 1; PyStr "a"; PyInt 9] !! i) ∧
    (¬ NoDup (column_names cursor) → size d < 3).
Proof.
  intros cursor. split; [reflexivity|]. split; [reflexivity|].
  apply (format_results_repeated_columns cursor 0 [PyInt 1; PyStr "a"; PyInt 9]);
    reflexivity.
Defined.

(** ** Running the repository operations *)

(** Every query method has one of two shapes: the shared helper of
    TIXLOG, which only closes its cursor, and the guarded query, which
    also turns a driver error into a notice and an empty list.  The two
    lemmas below say what each shape does with the answer of the driver. *)

Lemma _execute_query_run self base_query where_clause params drv w :
  let c := tixlog_connection self in
  let sql := base_query +:+ " WHERE " +:+ where_clause +:+ " ORDER BY ID DESC" in
  Tixlog._execute_query self base_query where_clause params drv w
  = (match cursor_execute drv (trace w ++ [EvCursor c]) c sql params with
     | inl e => Raises e
     | inr r => Returns (_format_results r)
     end,
     after w [EvCursor c; EvExecute c sql params; EvClose c]).
Proof.
  intros c sql. unfold Tixlog._execute_query, after, mbind, py_bind, cursor,
    try_finally, execute, close, emit, mret, py_ret. simpl.
  fold c. fold sql.
  destruct (cursor_execute drv (trace w ++ [EvCursor c]) c sql params);
    simpl; by rewrite <-!(assoc_L (++)).
Qed.

Lemma guarded_query_run c sql params notice drv w :
  guarded_query c sql params notice drv w
  = match cursor_execute drv (trace w ++ [EvCursor c]) c sql params with
    | inr r =>
      (Returns (_format_results r),
       after w [EvCursor c; EvExecute c sql params; EvClose c])
    | inl e =>
      if is_pyodbc_Error e then
        (Returns [],
         after w [EvCursor c; EvExecute c sql params;
                  EvUi (StError (notice +:+ exn_str e)); EvClose c])
      else
        (Raises e, after w [EvCursor c; EvExecute c sql params; EvClose c])
    end.
Proof.
  unfold guarded_query, after, mbind, py_bind, cursor, try_finally, try_except,
    execute, close, st_error, emit, mret, py_ret. simpl.
  destruct (cursor_execute drv (trace w ++ [EvCursor c]) c sql params) as [e|r];
    simpl; [destruct (is_pyodbc_Error e); simpl|]; by rewrite <-!(assoc_L (++)).
Qed.

(** C3, as amended: every single-value search operation of every
    repository answers the empty string with the empty list and leaves the
    world as it was: no cursor is opened and no query is executed. *)
Theorem run_search_empty_input (repos : repos) (op : single_value_search)
    (drv : driver) (w : world) :
  run_search repos op "" drv w = (Returns [], w).
Proof. destruct op; reflexivity. Qed.

(** C3 as stated fails on a blank text that is not empty: a single space
    is sent to the data source. *)
Lemma run_search_blank_input_counterexample :
  ¬ (∀ (repos : repos) (op : single_value_search) (input : string)
       (drv : driver) (w : world),
       is_blank input → run_search repos op input drv w = (Returns [], w)).
Proof.
  intros H.
  specialize (H (repos_on 0) TixlogByNrControle " " driver_one_row fresh_world
                eq_refl).
  vm_compute in H. discriminate.
Qed.

(** C10: the performance summary called with a mode other than '24h' and
    '100k' returns the empty list and leaves the world as it was: no cursor
    is opened and the data source is not contacted. *)
Theorem get_performance_summary_data_other_mode (self : TixlogRepository)
    (mode : string) (drv : driver) (w : world) :
  mode ≠ "24h" → mode ≠ "100k" →
  Tixlog.get_performance_summary_data self mode drv w = (Returns [], w).
Proof.
  intros H24 H100. unfold Tixlog.get_performance_summary_data.
  by rewrite !bool_decide_eq_false_2.
Qed.

Lemma get_performance_summary_data_other_mode_witness :
  "7d" ≠ "24h" ∧ "7d" ≠ "100k" ∧
  Tixlog.get_performance_summary_data (NewTixlogRepository 0) "7d"
    driver_one_row fresh_world = (Returns [], fresh_world).
Proof.
  assert ("7d" ≠ "24h") as H24 by discriminate.
  assert ("7d" ≠ "100k") as H100 by discriminate.
  split; [exact H24|]. split; [exact H100|].
  exact (get_performance_summary_data_other_mode (NewTixlogRepository 0) "7d"
           driver_one_row fresh_world H24 H100).
Defined.

(** C1, at the failing input: with the link down, the four TIXLOG
    searches that go through the shared helper raise the driver's error to
    their caller after closing the cursor, and no notice is shown; the
    search in the JSON columns, on the same driver, shows the notice and
    returns the empty list. *)
Theorem tixlog_helper_raises_driver_error :
  let self := NewTixlogRepository 0 in
  let base := "SELECT TOP (1000) * FROM [indigo_pix].[dbo].[TIXLOG] WITH (NOLOCK)" in
  let raised (where_clause : string) (params : list pyval) :=
    (Raises link_down : outcome (list row),
     after fresh_world
       [EvCursor 0;
        EvExecute 0 (base +:+ " WHERE " +:+ where_clause +:+ " ORDER BY ID DESC") params;
        EvClose 0]) in
  Tixlog.find_by_nr_controle self "E2024" driver_link_down fresh_world
    = raised "NR_CONTROLE = ?" [PyStr "E2024"] ∧
  Tixlog.find_by_idreqjdpi self "REQ1" driver_link_down fresh_world
    = raised "IDREQJDPI = ?" [PyStr "REQ1"] ∧
  Tixlog.find_by_nr_controle_in self ["E2024"; "E2025"] driver_link_down fresh_world
    = raised "NR_CONTROLE IN (?, ?)" [PyStr "E2024"; PyStr "E2025"] ∧
  Tixlog.find_by_origem self "api" driver_link_down fresh_world
    = raised "ORIGEM = ?" [PyStr "api"] ∧
  ∃ w', Tixlog.find_by_json_content self "E2024" driver_link_down fresh_world
        = (Returns [], w') ∧
        EvUi (StError ("Erro ao executar a busca no JSON: " +:+ exn_str link_down))
          ∈ trace w'.
Proof.
  intros self base raised. repeat split; try reflexivity.
  eexists. split; [reflexivity|]. simpl. set_solver.
Qed.

(** The same for any driver, input and world: what the driver raises at
    [execute], the helper raises to its caller. *)
Lemma _execute_query_raises self base_query where_clause params drv w e :
  cursor_execute drv (trace w ++ [EvCursor (tixlog_connection self)])
    (tixlog_connection self)
    (base_query +:+ " WHERE " +:+ where_clause +:+ " ORDER BY ID DESC") params = inl e →
  ∃ w', Tixlog._execute_query self base_query where_clause params drv w = (Raises e, w').
Proof. intros He. rewrite _execute_query_run. simpl. rewrite He. eauto. Qed.

(** The other repositories keep the promise: a driver error at [execute]
    ends in the empty list. *)
Lemma guarded_query_catches c sql params notice drv w e :
  cursor_execute drv (trace w ++ [EvCursor c]) c sql params = inl e →
  is_pyodbc_Error e = true →
  ∃ w', guarded_query c sql params notice drv w = (Returns [], w').
Proof. intros He Hc. rewrite guarded_query_run, He, Hc. eauto. Qed.


(** ** In-list search *)

Lemma count_char_app c s1 s2 :
  count_char c (s1 +:+ s2) = count_char c s1 + count_char c s2.
Proof. induction s1 as [|a s1 IH]; simpl; [done|]. rewrite IH. lia. Qed.

(** The placeholders: one question mark per element, and nothing else
    that is a question mark. *)
Lemma count_char_placeholders {A} (l : list A) :
  count_char "?" (str_join ", " ((λ _, "?") <$> l)) = length l.
Proof.
  induction l as [|x [|y l] IH]; [done..|].
  change (count_char "?" ("?" +:+ ", " +:+ str_join ", " ((λ _, "?") <$> y :: l))
          = S (length (y :: l))).
  rewrite !count_char_app, IH. reflexivity.
Qed.

Lemma str_join_placeholders {A} (l : list A) :
  str_join ", " ((λ _, "?") <$> l) = str_join ", " (replicate (length l) "?").
Proof. f_equal. induction l; simpl; by f_equal. Qed.

(** C5: the in-list search answers the empty list with the empty list and
    leaves the world as it was; for a list of n strings it executes one
    query, whose predicate is [NR_CONTROLE IN (?, ..., ?)] with exactly n
    placeholders, and whose parameters are the n strings in their order.
    The search page calls it with the trimmed, non-blank lines and not at
    all when there is none. *)
Theorem find_by_nr_controle_in_placeholders (self : TixlogRepository)
    (drv : driver) (w : world) :
  Tixlog.find_by_nr_controle_in self [] drv w = (Returns [], w) ∧
  (∀ (nr : string) (rest : list string),
     let nr_controles := nr :: rest in
     let c := tixlog_connection self in
     let placeholders := str_join ", " (replicate (length nr_controles) "?") in
     let where_clause := "NR_CONTROLE IN (" +:+ placeholders +:+ ")" in
     let sql :=
       "SELECT TOP (1000) * FROM [indigo_pix].[dbo].[TIXLOG] WITH (NOLOCK)"
       +:+ " WHERE " +:+ where_clause +:+ " ORDER BY ID DESC" in
     count_char "?" placeholders = length nr_controles ∧
     count_char "?" sql = length nr_controles ∧
     Tixlog.find_by_nr_controle_in self nr_controles drv w
     = (match cursor_execute drv (trace w ++ [EvCursor c]) c sql
                (PyStr <$> nr_controles) with
        | inl e => Raises e
        | inr r => Returns (_format_results r)
        end,
        after w [EvCursor c; EvExecute c sql (PyStr <$> nr_controles); EvClose c])) ∧
  (∀ (repos : repos) (input_value : string),
     tixlog_primary_results repos TIXLOG_LISTA input_value
     = Tixlog.find_by_nr_controle_in (tixlog repos) (nr_list_of input_value)).
Proof.
  split; [reflexivity|]. split.
  - intros nr rest nr_controles c placeholders where_clause sql.
    assert (count_char "?" placeholders = length nr_controles) as Hcount.
    { unfold placeholders. rewrite <-str_join_placeholders.
      apply count_char_placeholders. }
    split; [exact Hcount|]. split.
    + unfold sql, where_clause. rewrite !count_char_app, Hcount.
      change (0 + (0 + (0 + (length nr_controles + 0) + 0)) = length nr_controles).
      lia.
    + subst sql where_clause placeholders c nr_controles.
      unfold Tixlog.find_by_nr_controle_in. cbv beta iota zeta.
      rewrite _execute_query_run, str_join_placeholders. reflexivity.
  - intros repos input_value. unfold tixlog_primary_results.
    rewrite bool_decide_eq_false_2 by discriminate.
    rewrite bool_decide_eq_false_2 by discriminate.
    rewrite bool_decide_eq_true_2 by reflexivity.
    by destruct (nr_list_of input_value).
Qed.

(** ** Connection guardian *)

Lemma init_connection_run drv w :
  init_connection drv w = established (trace w) (pyodbc_connect drv (trace w)).
Proof.
  unfold init_connection, established, try_except, mbind, py_bind, connect.
  destruct (pyodbc_connect drv (trace w)) as [e|c]; simpl; [|reflexivity].
  by rewrite <-!(assoc_L (++)).
Qed.

Lemma new_events_app w tr slot1 slot2 evs :
  tr = trace w ++ evs → new_events w (World tr slot1 slot2) = evs.
Proof. intros ->. unfold new_events. simpl. by rewrite drop_app_length. Qed.

(** C6, as amended.  Without session state the guardian attempts
    establishment once; success stores the connection and one instance of
    each of the four repositories and returns them, failure reports the
    error, clears the session and returns [None].  With session state it
    issues the liveness probe; when the probe succeeds it returns the
    repositories of the session and leaves the session as it was, without
    an attempt; when the probe fails with [OperationalError] or
    [ProgrammingError] it reports the loss, attempts establishment exactly
    once, closes the probe's cursor, and returns the fresh repositories or
    [None] with the error reported. *)
Theorem check_connection_contract (drv : driver) (w : world) :
  (session_repos w = Unset ∨ session_repos w = SetNone →
   check_connection drv w = established (trace w) (pyodbc_connect drv (trace w)) ∧
   connect_attempts w (check_connection drv w).2 = 1) ∧
  (∀ (r : repos) (c : connection),
     session_repos w = Holds r → db_connection w = Holds c →
     match cursor_execute drv (trace w ++ [EvCursor c]) c "SELECT 1" [] with
     | inr _ =>
       check_connection drv w
       = (Returns (Some r), after w (probe c ++ [EvClose c])) ∧
       connect_attempts w (check_connection drv w).2 = 0
     | inl e =>
       is_Operational_or_Programming e = true →
       let tr := trace w ++ probe c ++ [lost_notice] in
       let '(result, w') := established tr (pyodbc_connect drv tr) in
       check_connection drv w
       = (result, World (trace w' ++ [EvClose c]) (db_connection w') (session_repos w')) ∧
       connect_attempts w (check_connection drv w).2 = 1
     end).
Proof.
  split.
  - intros Hno.
    assert (check_connection drv w = init_connection drv w) as ->.
    { unfold check_connection, mbind, py_bind, get_repos.
      by destruct Hno as [-> | ->]. }
    rewrite init_connection_run. split; [done|].
    unfold connect_attempts.
    destruct (pyodbc_connect drv (trace w)); simpl;
      (erewrite new_events_app; [|done]); reflexivity.
  - intros r c Hr Hc.
    unfold check_connection, mbind, py_bind, get_repos, get_db_connection,
      cursor, try_finally, try_except, execute, emit, mret, py_ret.
    rewrite Hr, Hc. simpl.
    destruct (cursor_execute drv (trace w ++ [EvCursor c]) c "SELECT 1" [])
      as [e|res] eqn:Hprobe; simpl.
    + intros Hcaught. rewrite Hcaught.
      unfold st_warning, emit. rewrite init_connection_run. simpl.
      rewrite <-!(assoc_L (++)). simpl.
      unfold connect_attempts, probe, lost_notice.
      destruct (pyodbc_connect drv _) as [e'|c']; simpl; (split; [done|]);
        (erewrite new_events_app; [|by rewrite <-!(assoc_L (++))]); reflexivity.
    + unfold read_repos, mbind, py_bind, get_repos. simpl. rewrite Hr. simpl.
      unfold after, probe, connect_attempts. rewrite Hc, Hr.
      rewrite <-!(assoc_L (++)). simpl. split; [done|].
      erewrite new_events_app; [|done]. reflexivity.
Qed.

Lemma check_connection_contract_witness :
  ((session_repos fresh_world = Unset ∨ session_repos fresh_world = SetNone) ∧
   check_connection driver_reconnects fresh_world
   = established (trace fresh_world)
       (pyodbc_connect driver_reconnects (trace fresh_world)) ∧
   connect_attempts fresh_world (check_connection driver_reconnects fresh_world).2 = 1) ∧
  (session_repos connected_world = Holds (repos_on 0) ∧
   db_connection connected_world = Holds 0 ∧
   is_Operational_or_Programming link_down = true ∧
   check_connection driver_reconnects connected_world
   = (Returns (Some (repos_on 1)),
      World (probe 0 ++ [lost_notice; EvConnect; EvClose 0])
        (Holds 1) (Holds (repos_on 1))) ∧
   connect_attempts connected_world
     (check_connection driver_reconnects connected_world).2 = 1).
Proof.
  split.
  - assert (session_repos fresh_world = Unset ∨ session_repos fresh_world = SetNone)
      as Hno by (left; reflexivity).
    split; [exact Hno|].
    exact (proj1 (check_connection_contract driver_reconnects fresh_world) Hno).
  - split; [reflexivity|]. split; [reflexivity|]. split; [reflexivity|].
    exact (proj2 (check_connection_contract driver_reconnects connected_world)
             (repos_on 0) 0 eq_refl eq_refl eq_refl).
Defined.

(** The probe that fails with [OperationalError] on a live session: one
    attempt, and the caller gets the repositories of the new connection. *)
Example check_connection_reconnects :
  check_connection driver_reconnects connected_world
  = (Returns (Some (repos_on 1)),
     World (probe 0 ++ [lost_notice; EvConnect; EvClose 0])
       (Holds 1) (Holds (repos_on 1))).
Proof. reflexivity. Qed.

(** C6 as stated fails for a probe that fails with another class of the
    driver, here the base class [pyodbc.Error]: the guardian makes no
    attempt and the error reaches the caller. *)
Lemma check_connection_uncaught_probe_counterexample :
  ¬ (∀ (drv : driver) (w : world) (r : repos) (c : connection) (e : exn),
       session_repos w = Holds r → db_connection w = Holds c →
       cursor_execute drv (trace w ++ [EvCursor c]) c "SELECT 1" [] = inl e →
       ∃ (result : option repos) (w' : world),
         check_connection drv w = (Returns result, w') ∧
         connect_attempts w w' = 1).
Proof.
  intros H.
  destruct (H driver_general_error connected_world (repos_on 0) 0 general_error
              eq_refl eq_refl eq_refl) as (result & w' & Hrun & _).
  vm_compute in Hrun. discriminate.
Qed.

Example check_connection_uncaught_probe :
  check_connection driver_general_error connected_world
  = (Raises general_error, after connected_world (probe 0 ++ [EvClose 0])).
Proof. reflexivity. Qed.

(** ** JSON-or-text renderer *)



Lemma display_json_or_text_run loads content drv w :
  display_json_or_text loads content drv w
  = if negb (truthy content) || negb (isinstance_str content) then
      (Returns (), after w [EvUi (StInfo "Conteúdo vazio ou não é texto.")])
    else
      match loads (json_part_of (as_str content)) with
      | inr parsed => (Returns (), after w [EvUi (StJson parsed)])
      | inl e =>
        if is_JSONDecodeError e then
          (Returns (), after w [EvUi (StCode (as_str content))])
        else (Raises e, w)
      end.
Proof.
  unfold display_json_or_text.
  destruct (negb (truthy content) || negb (isinstance_str content)); [reflexivity|].
  fold (json_part_of (as_str content)).
  unfold try_except, mbind, py_bind, json_loads.
  destruct (loads (json_part_of (as_str content))) as [e|parsed]; [|reflexivity].
  unfold raise. by destruct (is_JSONDecodeError e).
Qed.



(** What the reader of this file answers on the two texts the library
    gives up on without a [JSONDecodeError]. *)
Example read_json_deep : read_json deep_text = inl (recursion_error "array").
Proof. vm_compute. reflexivity. Qed.

Example read_json_long_integer : read_json long_integer_text = inl digits_error.
Proof. vm_compute. reflexivity. Qed.


Example display_json_or_text_long_integer :
  display_json_or_text read_json (PyStr long_integer_text) driver_one_row fresh_world
  = (Raises digits_error, fresh_world).
Proof.
  rewrite display_json_or_text_run.
  change (as_str (PyStr long_integer_text)) with long_integer_text.
  assert (read_json (json_part_of long_integer_text) = inl digits_error) as ->
    by (vm_compute; reflexivity).
  reflexivity.
Qed.

(** ** List mode: fan-out and merge *)

(** [strip] on white space of one byte and of several. *)
Example strip_ascii : strip (String "009" " 42 " +:+ String "013" "") = "42".
Proof. reflexivity. Qed.

Example strip_unicode : strip (unicode_blank +:+ "4 2" +:+ unicode_blank) = "4 2".
Proof. reflexivity. Qed.

Example unicode_blank_is_blank : is_blank unicode_blank.
Proof. reflexivity. Qed.

Example nr_list_of_two_lines : nr_list_of two_lines = ["42"; "42"].
Proof. reflexivity. Qed.


Lemma after_after w evs1 evs2 : after (after w evs1) evs2 = after w (evs1 ++ evs2).
Proof. unfold after. simpl. by rewrite <-(assoc_L (++)). Qed.

Lemma after_nil w : after w [] = w.
Proof. destruct w. unfold after. simpl. by rewrite app_nil_r. Qed.

Lemma new_events_after w evs : new_events w (after w evs) = evs.
Proof. unfold new_events, after. simpl. by rewrite drop_app_length. Qed.













(** Two lookups that return the same row: the merged list has it once. *)
Example list_mode_collapses_identical_rows :
  (tixlog_complementary_results (repos_on 0) TIXLOG_LISTA two_lines
     driver_one_row fresh_world).1
  = Returns [dict [("ID", PyInt 1); ("OUTRAS_INFO", PyStr "conta 42")]].
Proof. vm_compute. reflexivity. Qed.

(** ** Direction inference *)

Section direction_facts.
Context (co : collation) (Horder : orders_labels co).

Lemma case_label_labels r : case_label co r ∈ labels.
Proof.
  unfold case_label, labels.
  destruct (when_out co r); [|destruct (when_in co r)]; set_solver.
Qed.

Lemma compare_labels i j a b :
  labels !! i = Some a → labels !! j = Some b →
  max_text co a b = if decide (i < j) then b else a.
Proof.
  intros Hi Hj. unfold max_text. pose proof (Horder i j a b Hi Hj) as Hlt.
  destruct (sql_compare co a b); case_decide; naive_solver.
Qed.

Lemma foldl_max_text t texts :
  Forall (λ a, a ∈ labels) (t :: texts) →
  foldl (max_text co) t texts = greatest (t :: texts).
Proof.
  revert t. induction texts as [|x texts IH]; intros t Hall.
  - apply Forall_cons in Hall as [Ht _]. unfold greatest, labels in *. simpl.
    repeat case_decide; set_solver.
  - apply Forall_cons in Hall as [Ht Hall].
    pose proof Hall as Hall'. apply Forall_cons in Hall' as [Hx Htexts].
    simpl.
    assert (max_text co t x ∈ labels ∧
            greatest (max_text co t x :: texts) = greatest (t :: x :: texts))
      as [Hm Hg].
    { apply list_elem_of_lookup in Ht as [i Hi]. apply list_elem_of_lookup in Hx as [j Hj].
      rewrite (compare_labels i j t x Hi Hj).
      destruct i as [|[|[|i]]], j as [|[|[|j]]]; simplify_eq/=;
        (split; [unfold labels; set_solver|]);
        unfold greatest; repeat case_decide; set_solver. }
    rewrite IH; [done|]. by apply Forall_cons.
Qed.

Lemma MAX_case_labels group :
  group ≠ [] → MAX co (case_label co <$> group) = Some (greatest (case_label co <$> group)).
Proof.
  destruct group as [|r group]; [done|]. intros _. simpl. f_equal.
  apply (foldl_max_text (case_label co r) (case_label co <$> group)).
  apply Forall_cons. split; [apply case_label_labels|].
  apply Forall_forall. intros a Ha. apply list_elem_of_fmap in Ha as (r' & -> & _).
  apply case_label_labels.
Qed.

Lemma Tipo_Operacao_greatest table nr_controle :
  rows_of co table nr_controle ≠ [] →
  Tipo_Operacao co table nr_controle
  = Some (greatest (case_label co <$> rows_of co table nr_controle)).
Proof.
  intros Hne. unfold Tipo_Operacao, OperationType_CTE.
  destruct (rows_of co table nr_controle) as [|r group] eqn:Hrows; [done|].
  by rewrite MAX_case_labels.
Qed.

Lemma greatest_is_maximum texts a :
  Forall (λ a, a ∈ labels) texts → a ∈ texts →
  greatest texts ∈ texts ∧ sql_compare co (greatest texts) a ≠ Lt.
Proof.
  intros Hall Ha.
  assert (a ∈ labels) as Hal by (by eapply Forall_forall in Hall).
  assert (∀ i j x y, labels !! i = Some x → labels !! j = Some y → j ≤ i →
                     sql_compare co x y ≠ Lt) as Hge.
  { intros i j x y Hi Hj Hji Hlt. apply (Horder i j x y Hi Hj) in Hlt. lia. }
  unfold greatest. unfold labels in Hal.
  apply elem_of_cons in Hal as [->|Hal];
    [|apply elem_of_cons in Hal as [->|Hal];
      [|apply list_elem_of_singleton in Hal as ->]];
    repeat case_decide; try done; (split; [done|]).
  - apply (Hge 2 0); [reflexivity..|lia].
  - apply (Hge 1 0); [reflexivity..|lia].
  - apply (Hge 0 0); [reflexivity..|lia].
  - apply (Hge 2 1); [reflexivity..|lia].
  - apply (Hge 1 1); [reflexivity..|lia].
  - apply (Hge 2 2); [reflexivity..|lia].
Qed.

End direction_facts.

Lemma binary_collation_orders_labels : orders_labels binary_collation.
Proof.
  intros i j a b Hi Hj.
  destruct i as [|[|[|i]]], j as [|[|[|j]]]; simplify_eq/=;
    (split; [intros Hlt; vm_compute in Hlt; (discriminate || lia)
            |intros Hlt; (lia || reflexivity)]).
Qed.

(** C4, as amended.  For a collation that orders the labels IN,
    Indefinido, OUT.  A row is labelled OUT when its actor is
    'envia_pix_prod' or its description matches the debit keyword; IN when
    it is not OUT and its actor is 'recebe_pix_prod' or its description
    matches the credit keyword; Indefinido otherwise.  A correlation id
    without rows has no summary row.  For one with rows the inferred
    direction is the maximum of the labels of its rows: a label of one of
    the rows that no other label exceeds; so OUT when some row is OUT,
    Indefinido when no row is OUT and some row is Indefinido, IN when every
    row is IN.  Hence rows that all have actor 'envia_pix_prod' infer OUT,
    rows that all have actor 'recebe_pix_prod' and of which none is OUT
    infer IN, and rows that match nothing infer Indefinido. *)
Theorem direction_inference_maximum (co : collation) (table : list tixlog_row)
    (nr_controle : string) :
  orders_labels co →
  let group := rows_of co table nr_controle in
  let row_labels := case_label co <$> group in
  (∀ r, (when_out co r = true → case_label co r = "OUT") ∧
        (when_out co r = false → when_in co r = true → case_label co r = "IN") ∧
        (when_out co r = false → when_in co r = false →
         case_label co r = "Indefinido")) ∧
  (group = [] → Tipo_Operacao co table nr_controle = None) ∧
  (group ≠ [] →
   ∃ label,
     Tipo_Operacao co table nr_controle = Some label ∧
     label ∈ row_labels ∧
     (∀ a, a ∈ row_labels → sql_compare co label a ≠ Lt) ∧
     ((∃ r, r ∈ group ∧ when_out co r = true) → label = "OUT") ∧
     ((∀ r, r ∈ group → when_out co r = false) →
      (∃ r, r ∈ group ∧ when_in co r = false) → label = "Indefinido") ∧
     ((∀ r, r ∈ group → when_out co r = false ∧ when_in co r = true) →
      label = "IN") ∧
     ((∀ r, r ∈ group → eq_text co (USUARIO r) "envia_pix_prod" = Some true) →
      label = "OUT") ∧
     ((∀ r, r ∈ group → eq_text co (USUARIO r) "recebe_pix_prod" = Some true ∧
                        when_out co r = false) →
      label = "IN") ∧
     ((∀ r, r ∈ group → when_out co r = false ∧ when_in co r = false) →
      label = "Indefinido")).
Proof.
  intros Horder group row_labels.
  assert (∀ r, (when_out co r = true → case_label co r = "OUT") ∧
               (when_out co r = false → when_in co r = true → case_label co r = "IN") ∧
               (when_out co r = false → when_in co r = false →
                case_label co r = "Indefinido")) as Hcase.
  { intros r. unfold case_label.
    destruct (when_out co r), (when_in co r); naive_solver. }
  split; [exact Hcase|]. split.
  { intros Hgroup. unfold Tipo_Operacao. fold group. by rewrite Hgroup. }
  intros Hgroup. exists (greatest row_labels).
  assert (Forall (λ a, a ∈ labels) row_labels) as Hall.
  { apply Forall_forall. intros a Ha. apply list_elem_of_fmap in Ha as (r & -> & _).
    by apply case_label_labels. }
  assert (∃ a, a ∈ row_labels) as [a0 Ha0].
  { destruct group as [|r group'] eqn:Hg; [done|].
    exists (case_label co r). apply list_elem_of_fmap. exists r. split; [done|left]. }
  assert (("OUT" ∈ row_labels ↔ ∃ r, r ∈ group ∧ when_out co r = true) ∧
          ("Indefinido" ∈ row_labels ↔
           ∃ r, r ∈ group ∧ when_out co r = false ∧ when_in co r = false))
    as [Hout Hund].
  { unfold row_labels. rewrite !list_elem_of_fmap. split; split.
    - intros (r & Hr & Hin). exists r. split; [done|].
      unfold case_label in Hr. by destruct (when_out co r), (when_in co r).
    - intros (r & Hin & Hr). exists r. split; [|done]. symmetry. by apply Hcase.
    - intros (r & Hr & Hin). exists r. split; [done|].
      unfold case_label in Hr. by destruct (when_out co r), (when_in co r).
    - intros (r & Hin & Hr1 & Hr2). exists r. split; [|done]. symmetry. by apply Hcase. }
  split; [by apply Tipo_Operacao_greatest|].
  split; [by apply (greatest_is_maximum co Horder row_labels a0)|].
  split; [intros a Ha; by apply (greatest_is_maximum co Horder row_labels a)|].
  assert ((∃ r, r ∈ group ∧ when_out co r = true) → greatest row_labels = "OUT")
    as Hsome_out.
  { intros Hex. unfold greatest. rewrite decide_True; [done|]. by apply Hout. }
  assert ((∀ r, r ∈ group → when_out co r = false) →
          (∃ r, r ∈ group ∧ when_in co r = false) →
          greatest row_labels = "Indefinido") as Hsome_und.
  { intros Hno (r & Hr & Hin). unfold greatest.
    rewrite decide_False, decide_True; [done| |].
    - apply Hund. exists r. auto.
    - rewrite Hout. intros (r' & Hr' & Hout'). by rewrite Hno in Hout'. }
  assert ((∀ r, r ∈ group → when_out co r = false ∧ when_in co r = true) →
          greatest row_labels = "IN") as Hall_in.
  { intros Hin. unfold greatest. rewrite !decide_False; [done| |].
    - rewrite Hund. intros (r & Hr & _ & Hr'). destruct (Hin r Hr). congruence.
    - rewrite Hout. intros (r & Hr & Hr'). destruct (Hin r Hr). congruence. }
  assert (∃ r0, r0 ∈ group) as [r0 Hr0].
  { destruct group as [|r group']; [done|]. exists r. left. }
  split; [done|]. split; [done|]. split; [done|]. split; [|split].
  - intros Hactor. apply Hsome_out. exists r0. split; [done|].
    unfold when_out. by rewrite (Hactor r0 Hr0).
  - intros Hactor. apply Hall_in. intros r Hr. destruct (Hactor r Hr) as [Hu Ho].
    split; [done|]. unfold when_in. by rewrite Hu.
  - intros Hnone. apply Hsome_und.
    + intros r Hr. by destruct (Hnone r Hr).
    + exists r0. split; [done|]. by destruct (Hnone r0 Hr0).
Qed.

Lemma direction_inference_maximum_witness :
  let table := [TixlogRow (Some "E1") (Some "envia_pix_prod") None;
                TixlogRow (Some "E2") (Some "recebe_pix_prod") None;
                TixlogRow (Some "E1") (Some "monitor") (Some "consulta")] in
  orders_labels binary_collation ∧
  rows_of binary_collation table "E1" ≠ [] ∧
  ∃ label,
    Tipo_Operacao binary_collation table "E1" = Some label ∧
    label ∈ case_label binary_collation <$> rows_of binary_collation table "E1".
Proof.
  intros table. split; [exact binary_collation_orders_labels|].
  assert (rows_of binary_collation table "E1" ≠ []) as Hrows.
  { vm_compute. discriminate. }
  split; [exact Hrows|].
  destruct (proj2 (proj2 (direction_inference_maximum binary_collation table "E1"
                            binary_collation_orders_labels)) Hrows)
    as (label & Hlabel & Hin & _).
  exists label. split; assumption.
Defined.

(** C4 as stated fails for rows that all have actor 'recebe_pix_prod' when
    the description of one matches the debit keyword: the first [WHEN]
    decides, and the direction is OUT. *)
Lemma direction_inference_inbound_actor_counterexample :
  ¬ (∀ (table : list tixlog_row) (nr_controle : string),
       rows_of binary_collation table nr_controle ≠ [] →
       (∀ r, r ∈ rows_of binary_collation table nr_controle →
             USUARIO r = Some "recebe_pix_prod") →
       Tipo_Operacao binary_collation table nr_controle = Some "IN").
Proof.
  intros H.
  specialize (H [TixlogRow (Some "E1") (Some "recebe_pix_prod") (Some "DÉBITO EM CONTA")]
                "E1").
  assert (Tipo_Operacao binary_collation
            [TixlogRow (Some "E1") (Some "recebe_pix_prod") (Some "DÉBITO EM CONTA")]
            "E1" = Some "OUT") as Hout by (vm_compute; reflexivity).
  rewrite Hout in H.
  assert (Some "OUT" = Some "IN") as Habs; [|discriminate Habs].
  apply H.
  - vm_compute. discriminate.
  - intros r Hr. vm_compute in Hr. apply list_elem_of_singleton in Hr as ->. reflexivity.
Qed.

(** The end-to-end scenario of the specification: two rows of the outbound
    actor and one that matches nothing infer OUT. *)
Example direction_two_out_one_undefined :
  Tipo_Operacao binary_collation
    [TixlogRow (Some "E1") (Some "envia_pix_prod") None;
     TixlogRow (Some "E1") (Some "envia_pix_prod") (Some "envio");
     TixlogRow (Some "E1") (Some "monitor") None] "E1" = Some "OUT".
Proof. vm_compute. reflexivity. Qed.

(** * Further properties *)

(** ** Every repository operation is one query at most *)

Lemma helper_query_run c sql params drv w :
  helper_query c sql params drv w
  = (match cursor_execute drv (trace w ++ [EvCursor c]) c sql params with
     | inl e => Raises e
     | inr r => Returns (_format_results r)
     end,
     after w (query_events c sql params [])).
Proof.
  unfold helper_query, query_events, after, mbind, py_bind, cursor, try_finally,
    execute, close, emit, mret, py_ret. simpl.
  destruct (cursor_execute drv (trace w ++ [EvCursor c]) c sql params);
    simpl; by rewrite <-!(assoc_L (++)).
Qed.

(** An operation returns at once, or is the helper's query, or is a
    guarded query. *)
Lemma operation_shape repos op :
  (∀ drv w, run_operation repos op drv w = (Returns [], w)) ∨
  ∃ c sql params,
    (uses_helper op = true ∧ run_operation repos op = helper_query c sql params) ∨
    (uses_helper op = false ∧
     ∃ notice, run_operation repos op = guarded_query c sql params notice).
Proof.
  destruct op as [op input|nr_controles| |mode|hours_ago|].
  - destruct input as [|a input]; [left; by destruct op|].
    right. destruct op; eexists _, _, _;
      first [left; split; reflexivity | right; split; [reflexivity|]; by eexists].
  - destruct nr_controles as [|nr rest]; [by left|].
    right. eexists _, _, _. left. split; reflexivity.
  - right. eexists _, _, _. right. split; [reflexivity|]. by eexists.
  - simpl. unfold Tixlog.get_performance_summary_data.
    destruct (bool_decide (mode = "24h")); [|destruct (bool_decide (mode = "100k"))].
    + right. eexists _, _, _. right. split; [reflexivity|]. by eexists.
    + right. eexists _, _, _. right. split; [reflexivity|]. by eexists.
    + by left.
  - right. eexists _, _, _. right. split; [reflexivity|]. by eexists.
  - right. eexists _, _, _. right. split; [reflexivity|]. by eexists.
Qed.

(** X1: whatever the driver answers, a repository operation leaves the
    session as it was, and it either does nothing at all and returns the
    empty list, or opens one cursor, executes one query on it, shows at most
    one error notice and closes the cursor: no cursor is left open, on the
    way that returns and on the way that raises. *)
Theorem operations_close_their_cursor (repos : repos) (op : operation)
    (drv : driver) (w : world) :
  run_operation repos op drv w = (Returns [], w) ∨
  ∃ c sql params notice result,
    run_operation repos op drv w
    = (result, after w (query_events c sql params notice)) ∧
    (notice = [] ∨ ∃ msg, notice = [EvUi (StError msg)]).
Proof.
  destruct (operation_shape repos op)
    as [Hnone|(c & sql & params & [[_ ->]|[_ [notice ->]]])]; [by left|right..].
  - rewrite helper_query_run. eexists c, sql, params, [], _. split; [done|by left].
  - rewrite guarded_query_run.
    destruct (cursor_execute drv _ _ _ _) as [e|r]; [destruct (is_pyodbc_Error e)|].
    + eexists c, sql, params, [_], _. split; [reflexivity|]. right. by eexists.
    + eexists c, sql, params, [], _. split; [reflexivity|]. by left.
    + eexists c, sql, params, [], _. split; [reflexivity|]. by left.
Qed.

(** X2: an operation that does not go through the helper of TIXLOG, on a
    driver that raises only the driver's errors, always returns; when the
    driver raised, it returns the empty list after a notice that ends with
    the text of the error, and otherwise the formatted rows. *)
Theorem guarded_operations_return (repos : repos) (op : operation)
    (drv : driver) (w : world) :
  uses_helper op = false → raises_only_pyodbc drv →
  run_operation repos op drv w = (Returns [], w) ∨
  ∃ c sql params prefix,
    run_operation repos op drv w
    = match cursor_execute drv (trace w ++ [EvCursor c]) c sql params with
      | inr r =>
        (Returns (_format_results r), after w (query_events c sql params []))
      | inl e =>
        (Returns [],
         after w (query_events c sql params
                    [EvUi (StError (prefix +:+ exn_str e))]))
      end.
Proof.
  intros Hop Hdrv.
  destruct (operation_shape repos op)
    as [Hnone|(c & sql & params & [[Hh _]|[_ [notice ->]]])];
    [by left|congruence|right].
  exists c, sql, params, notice. rewrite guarded_query_run.
  destruct (cursor_execute drv _ _ _ _) as [e|r] eqn:Hexec; [|done].
  by rewrite (Hdrv _ _ _ _ _ Hexec).
Qed.

Lemma driver_link_down_raises_only_pyodbc : raises_only_pyodbc driver_link_down.
Proof. intros tr c sql params e He. by injection He as <-. Qed.

Lemma guarded_operations_return_witness :
  uses_helper MclogLatestErrors = false ∧ raises_only_pyodbc driver_link_down ∧
  (run_operation (repos_on 0) MclogLatestErrors driver_link_down fresh_world
   = (Returns [], fresh_world) ∨
   ∃ c sql params prefix,
     run_operation (repos_on 0) MclogLatestErrors driver_link_down fresh_world
     = match cursor_execute driver_link_down (trace fresh_world ++ [EvCursor c]) c sql
               params with
       | inr r =>
         (Returns (_format_results r),
          after fresh_world (query_events c sql params []))
       | inl e =>
         (Returns [],
          after fresh_world (query_events c sql params
                               [EvUi (StError (prefix +:+ exn_str e))]))
       end).
Proof.
  split; [reflexivity|]. split; [exact driver_link_down_raises_only_pyodbc|].
  exact (guarded_operations_return (repos_on 0) MclogLatestErrors driver_link_down
           fresh_world eq_refl driver_link_down_raises_only_pyodbc).
Defined.

(** ** The text of a search does not depend on what is searched *)

(** The guard of the single-value searches, as a lemma of its own. *)
Lemma run_search_empty_input_all repos op drv w :
  run_search repos op "" drv w = (Returns [], w).
Proof. by destruct op. Qed.


Ltac solve_params :=
  intros; simpl;
  repeat (apply Forall_cons; split; [first [by left|by right]|]);
  by apply Forall_nil.

Lemma run_search_shape repos op :
  ∃ c sql (params : string → list pyval),
    (∀ input, Forall (λ p, p = PyStr input ∨ p = PyStr ("%" +:+ input +:+ "%"))
                (params input)) ∧
    ∀ a input,
      run_search repos op (String a input)
      = helper_query c sql (params (String a input)) ∨
      ∃ notice,
        run_search repos op (String a input)
        = guarded_query c sql (params (String a input)) notice.
Proof.
  destruct op.
  - eexists _, _, (λ input, [PyStr input]). split; [solve_params|].
    intros a input. left. reflexivity.
  - eexists _, _, (λ input, [PyStr input]). split; [solve_params|].
    intros a input. left. reflexivity.
  - eexists _, _, (λ input, PyStr <$> replicate 6 ("%" +:+ input +:+ "%")).
    split; [solve_params|].
    intros a input. right. eexists. reflexivity.
  - eexists _, _, (λ input, [PyStr input]). split; [solve_params|].
    intros a input. left. reflexivity.
  - eexists _, _, (λ input, [PyStr input; PyStr input]).
    split; [solve_params|].
    intros a input. right. eexists. reflexivity.
  - eexists _, _, (λ input, [PyStr ("%" +:+ input +:+ "%")]).
    split; [solve_params|].
    intros a input. right. eexists. reflexivity.
  - eexists _, _, (λ input, [PyStr input]). split; [solve_params|].
    intros a input. right. eexists. reflexivity.
  - eexists _, _, (λ input, [PyStr input]). split; [solve_params|].
    intros a input. right. eexists. reflexivity.
  - eexists _, _, (λ input, [PyStr ("%" +:+ input +:+ "%")]).
    split; [solve_params|].
    intros a input. right. eexists. reflexivity.
Qed.

Lemma elem_of_query_events_execute c sql params notice c' text params' :
  (notice = [] ∨ ∃ msg, notice = [EvUi (StError msg)]) →
  EvExecute c' text params' ∈ query_events c sql params notice →
  c' = c ∧ text = sql ∧ params' = params.
Proof.
  intros Hnotice. unfold query_events.
  rewrite elem_of_app, elem_of_cons, list_elem_of_singleton, elem_of_app,
    list_elem_of_singleton.
  intros [[?|?]|[Hin|?]]; simplify_eq; [done|].
  destruct Hnotice as [->|[msg ->]]; [by apply elem_of_nil in Hin|].
  by apply list_elem_of_singleton in Hin.
Qed.

(** X3: each single-value search has one query text and one connection,
    whatever is searched: the searched value never becomes part of the text
    the database is sent, it reaches the database only as a parameter, as it
    is or between two percent signs. *)
Theorem search_text_independent_of_input (repos : repos) (op : single_value_search) :
  ∃ (c : connection) (sql : string),
    ∀ (input : string) (drv : driver) (w : world),
      ∃ evs,
        (run_search repos op input drv w).2 = after w evs ∧
        ∀ c' text params,
          EvExecute c' text params ∈ evs →
          c' = c ∧ text = sql ∧
          Forall (λ p, p = PyStr input ∨ p = PyStr ("%" +:+ input +:+ "%")) params.
Proof.
  destruct (run_search_shape repos op) as (c & sql & params & Hparams & Hshape).
  exists c, sql. intros input drv w.
  destruct input as [|a input].
  { exists []. rewrite run_search_empty_input_all, after_nil. split; [done|].
    intros c' text params' Hin. by apply elem_of_nil in Hin. }
  destruct (Hshape a input) as [->|[notice ->]].
  - rewrite helper_query_run. eexists. split; [reflexivity|].
    intros c' text params' Hin.
    apply elem_of_query_events_execute in Hin as (-> & -> & ->); auto.
  - rewrite guarded_query_run.
    destruct (cursor_execute drv _ _ _ _) as [e|r]; [destruct (is_pyodbc_Error e)|];
      (eexists; split; [reflexivity|]); intros c' text params' Hin.
    + apply (elem_of_query_events_execute c sql _ [_]) in Hin as (-> & -> & ->);
        [auto|right; by eexists].
    + apply (elem_of_query_events_execute c sql _ []) in Hin as (-> & -> & ->); auto.
    + apply (elem_of_query_events_execute c sql _ []) in Hin as (-> & -> & ->); auto.
Qed.

(** ** The session over the runs of the script *)

(** The ways through [check_connection], by what the session holds and
    what the driver answers. *)
Lemma check_connection_cases drv w :
  match session_repos w with
  | Holds r =>
    match db_connection w with
    | Holds c =>
      match cursor_execute drv (trace w ++ [EvCursor c]) c "SELECT 1" [] with
      | inr _ =>
        check_connection drv w = (Returns (Some r), after w (probe c ++ [EvClose c]))
      | inl e =>
        if is_Operational_or_Programming e then
          check_connection drv w
          = (let tr := trace w ++ probe c ++ [lost_notice] in
             let '(result, w') := established tr (pyodbc_connect drv tr) in
             (result, after w' [EvClose c]))
        else
          check_connection drv w = (Raises e, after w (probe c ++ [EvClose c]))
      end
    | _ => ∃ e, check_connection drv w = (Raises e, w)
    end
  | _ => check_connection drv w = established (trace w) (pyodbc_connect drv (trace w))
  end.
Proof.
  unfold check_connection, mbind, py_bind, get_repos, get_db_connection.
  destruct (session_repos w) as [| |r] eqn:Hr; simpl;
    [apply init_connection_run..|].
  destruct (db_connection w) as [| |c] eqn:Hc; simpl; [by eexists..|].
  unfold cursor, try_finally, try_except, execute, emit, mret, py_ret,
    mbind, py_bind. simpl.
  destruct (cursor_execute drv (trace w ++ [EvCursor c]) c "SELECT 1" [])
    as [e|res]; simpl.
  - destruct (is_Operational_or_Programming e); simpl.
    + unfold st_warning, emit. rewrite init_connection_run. simpl.
      rewrite <-!(assoc_L (++)). simpl.
      by destruct (pyodbc_connect drv _).
    + unfold after, probe. rewrite Hr, Hc, <-!(assoc_L (++)). done.
  - unfold read_repos, mbind, py_bind, get_repos. simpl. rewrite Hr. simpl.
    unfold after, probe. rewrite Hr, Hc, <-!(assoc_L (++)). done.
Qed.

Lemma established_session tr answer :
  let '(result, w') := established tr answer in
  ∃ res, result = Returns res ∧ session_result w' = res ∧ session_consistent w' ∧
         (res = None → db_connection w' = SetNone ∧ session_repos w' = SetNone).
Proof.
  destruct answer as [e|c]; simpl.
  - exists None. split; [done|]. split; [done|]. split; [by intros r Hr|done].
  - exists (Some (repos_on c)). split; [done|]. split; [done|]. split; [|done].
    intros r Hr. injection Hr as <-. by exists c.
Qed.

(** X4: [init_connection] never raises, whatever [pyodbc.connect] raises:
    it makes one attempt and returns what it has stored in the session;
    after a success these are the repositories built on the connection that
    [pyodbc.connect] returned, which is the connection the session holds;
    after a failure it is [None], and nothing of an earlier session is
    left. *)
Theorem init_connection_always_returns (drv : driver) (w : world) :
  ∃ (res : option repos) (w' : world),
    init_connection drv w = (Returns res, w') ∧
    session_result w' = res ∧
    session_consistent w' ∧
    (res = None → db_connection w' = SetNone ∧ session_repos w' = SetNone) ∧
    (∀ e, pyodbc_connect drv (trace w) = inl e → res = None) ∧
    (∀ c, pyodbc_connect drv (trace w) = inr c →
          res = Some (repos_on c) ∧ db_connection w' = Holds c) ∧
    connect_attempts w w' = 1.
Proof.
  rewrite init_connection_run.
  pose proof (established_session (trace w) (pyodbc_connect drv (trace w))) as Hs.
  destruct (established (trace w) (pyodbc_connect drv (trace w))) as [result w']
    eqn:Hest.
  destruct Hs as (res & -> & Hres & Hcons & Hnone).
  exists res, w'. split; [done|]. split; [done|]. split; [done|]. split; [done|].
  unfold established in Hest. split; [|split].
  - intros e He. rewrite He in Hest. by injection Hest as <- _.
  - intros c Hc. rewrite Hc in Hest. by injection Hest as <- <-.
  - unfold connect_attempts.
    destruct (pyodbc_connect drv (trace w)); injection Hest as _ <-;
      (erewrite new_events_app; [|done]); reflexivity.
Qed.

(** One run of [check_connection] from a consistent session. *)
Lemma check_connection_step drv w :
  session_consistent w →
  session_consistent (check_connection drv w).2 ∧
  match (check_connection drv w).1 with
  | Returns res => session_result (check_connection drv w).2 = res
  | Raises e =>
    is_Operational_or_Programming e = false ∧
    db_connection (check_connection drv w).2 = db_connection w ∧
    session_repos (check_connection drv w).2 = session_repos w ∧
    ∃ c, db_connection w = Holds c ∧
         cursor_execute drv (trace w ++ [EvCursor c]) c "SELECT 1" [] = inl e
  end.
Proof.
  intros Hcons. pose proof (check_connection_cases drv w) as Hcases.
  destruct (session_repos w) as [| |r] eqn:Hr.
  1,2: rewrite Hcases;
       pose proof (established_session (trace w) (pyodbc_connect drv (trace w))) as Hs;
       destruct (established _ _) as [result w']; simpl;
       destruct Hs as (res & -> & ? & ? & _); done.
  destruct (Hcons r Hr) as (c & Hc & ->). rewrite Hc in Hcases.
  destruct (cursor_execute drv (trace w ++ [EvCursor c]) c "SELECT 1" [])
    as [e|res] eqn:Hprobe.
  - destruct (is_Operational_or_Programming e) eqn:Hcaught; rewrite Hcases.
    + pose proof (established_session (trace w ++ probe c ++ [lost_notice])
                    (pyodbc_connect drv (trace w ++ probe c ++ [lost_notice]))) as Hs.
      cbv zeta. destruct (established _ _) as [result w']; simpl.
      destruct Hs as (res & -> & ? & ? & _); done.
    + simpl. split.
      { intros r' Hr'. simpl in Hr'. rewrite Hr in Hr'. injection Hr' as <-.
        exists c. by split. }
      split; [done|]. split; [done|]. split; [done|]. by exists c.
  - rewrite Hcases. simpl. split; [|unfold session_result; simpl; by rewrite Hr].
    intros r' Hr'. simpl in Hr'. rewrite Hr in Hr'. injection Hr' as <-.
    exists c. by split.
Qed.

Lemma run_cycles_consistent drvs :
  session_consistent (run_cycles drvs fresh_world).
Proof.
  unfold run_cycles.
  assert (session_consistent fresh_world) as Hfresh by (intros r Hr; discriminate Hr).
  revert Hfresh. generalize fresh_world as w.
  induction drvs as [|drv drvs IH]; intros w Hw; simpl; [done|].
  apply IH. by apply check_connection_step.
Qed.

(** X5: at every run of the script, whatever the drivers of the earlier
    runs answered, the session is consistent (the repositories it holds are
    those built on the connection it holds), and [check_connection] either
    returns exactly what the session holds afterwards, or raises an error
    that the liveness probe raised and that is neither an
    [OperationalError] nor a [ProgrammingError], leaving the session as it
    was.  It never fails for want of a connection in the session. *)
Theorem check_connection_serves_the_session (drvs : list driver) (drv : driver) :
  let w := run_cycles drvs fresh_world in
  session_consistent w ∧
  session_consistent (check_connection drv w).2 ∧
  match (check_connection drv w).1 with
  | Returns res => session_result (check_connection drv w).2 = res
  | Raises e =>
    is_Operational_or_Programming e = false ∧
    db_connection (check_connection drv w).2 = db_connection w ∧
    session_repos (check_connection drv w).2 = session_repos w ∧
    ∃ c, db_connection w = Holds c ∧
         cursor_execute drv (trace w ++ [EvCursor c]) c "SELECT 1" [] = inl e
  end.
Proof.
  intros w. pose proof (run_cycles_consistent drvs) as Hw. fold w in Hw.
  split; [done|]. by apply check_connection_step.
Qed.

Lemma check_connection_None drv w :
  (check_connection drv w).1 = Returns None →
  session_repos (check_connection drv w).2 = SetNone.
Proof.
  pose proof (check_connection_cases drv w) as Hcases.
  destruct (session_repos w) as [| |r] eqn:Hr.
  1,2: rewrite Hcases; by destruct (pyodbc_connect drv (trace w)).
  destruct (db_connection w) as [| |c] eqn:Hc.
  1,2: destruct Hcases as [e ->]; discriminate.
  destruct (cursor_execute drv (trace w ++ [EvCursor c]) c "SELECT 1" []) as [e|res].
  - destruct (is_Operational_or_Programming e); rewrite Hcases; [|discriminate].
    cbv zeta. by destruct (pyodbc_connect drv _).
  - rewrite Hcases. discriminate.
Qed.

(** X6: a failure is not remembered as a connection.  When
    [check_connection] has returned [None], the next call, on any driver,
    does not probe: it attempts establishment once and returns the
    repositories of the new connection, or [None] again. *)
Theorem check_connection_retries_after_failure (drv drv' : driver) (w : world) :
  (check_connection drv w).1 = Returns None →
  let w1 := (check_connection drv w).2 in
  check_connection drv' w1 = established (trace w1) (pyodbc_connect drv' (trace w1)) ∧
  connect_attempts w1 (check_connection drv' w1).2 = 1.
Proof.
  intros Hnone w1. apply check_connection_None in Hnone. fold w1 in Hnone.
  pose proof (check_connection_cases drv' w1) as Hcases. rewrite Hnone in Hcases.
  split; [done|]. rewrite Hcases. unfold connect_attempts.
  destruct (pyodbc_connect drv' (trace w1)); simpl;
    (erewrite new_events_app; [|done]); reflexivity.
Qed.

Lemma check_connection_retries_after_failure_witness :
  (check_connection driver_no_server connected_world).1 = Returns None ∧
  let w1 := (check_connection driver_no_server connected_world).2 in
  check_connection driver_reconnects w1
  = established (trace w1) (pyodbc_connect driver_reconnects (trace w1)) ∧
  connect_attempts w1 (check_connection driver_reconnects w1).2 = 1.
Proof.
  assert ((check_connection driver_no_server connected_world).1 = Returns None)
    as Hnone by reflexivity.
  split; [exact Hnone|].
  exact (check_connection_retries_after_failure driver_no_server driver_reconnects
           connected_world Hnone).
Defined.

(** ** The formatter loses nothing and never fails *)

(** X7: with pairwise distinct column names and one value per column, a
    row can be read back from its dictionary, column by column; so two rows
    with the same dictionary are the same row. *)
Theorem format_results_round_trip (columns : list string) (row row' : list pyval) :
  NoDup columns → length row = length columns →
  (λ c, dict (zip columns row) !! c) <$> columns = Some <$> row ∧
  (length row' = length columns →
   dict (zip columns row) = dict (zip columns row') → row = row').
Proof.
  intros Hnd Hlen.
  assert (∀ r, length r = length columns →
               (λ c, dict (zip columns r) !! c) <$> columns = Some <$> r) as Hback.
  { intros r Hr. apply list_eq. intros i. rewrite !list_lookup_fmap.
    destruct (columns !! i) as [c|] eqn:Hc; simpl.
    - rewrite (dict_zip_lookup_last columns r c i); [|done|by apply NoDup_last_position].
      apply lookup_lt_Some in Hc. rewrite <-Hr in Hc.
      by destruct (lookup_lt_is_Some_2 r i Hc) as [v ->].
    - apply lookup_ge_None in Hc. rewrite <-Hr in Hc.
      by rewrite (proj2 (lookup_ge_None r i) Hc). }
  split; [by apply Hback|].
  intros Hlen' Heq. apply (inj (fmap Some)).
  by rewrite <-(Hback row Hlen), <-(Hback row' Hlen'), Heq.
Qed.

Lemma format_results_round_trip_witness :
  NoDup ["ID"; "ORIGEM"] ∧ length [PyInt 1; PyStr "api"] = length ["ID"; "ORIGEM"] ∧
  (λ c, dict (zip ["ID"; "ORIGEM"] [PyInt 1; PyStr "api"]) !! c) <$> ["ID"; "ORIGEM"]
  = Some <$> [PyInt 1; PyStr "api"].
Proof.
  assert (NoDup ["ID"; "ORIGEM"]) as Hnd.
  { apply (bool_decide_unpack _). vm_compute. exact I. }
  split; [exact Hnd|]. split; [reflexivity|].
  exact (proj1 (format_results_round_trip ["ID"; "ORIGEM"] [PyInt 1; PyStr "api"] []
                  Hnd eq_refl)).
Defined.

Lemma zip_take {A B} (l : list A) (k : list B) :
  zip l k = zip (take (length k) l) (take (length l) k).
Proof.
  revert k. induction l as [|x l IH]; intros [|y k]; simpl; [done..|].
  f_equal. apply IH.
Qed.

(** X8: the formatter fails on no row, whatever its length.  It pairs the
    columns and the values as far as both go: a row longer than the
    columns loses its last values, a shorter one leaves the last columns
    without a key; no key is ever other than a column name, and a
    dictionary never has more entries than the row has values or the cursor
    has columns. *)
Theorem format_results_any_length (cursor : cursor_result) (j : nat) (row : list pyval) :
  fetchall cursor !! j = Some row →
  ∃ d, _format_results cursor !! j = Some d ∧
    d = dict (zip (take (length row) (column_names cursor))
                  (take (length (column_names cursor)) row)) ∧
    dom d = list_to_set (take (length row) (column_names cursor)) ∧
    (∀ k, is_Some (d !! k) → k ∈ column_names cursor) ∧
    size d ≤ length row ∧ size d ≤ length (column_names cursor).
Proof.
  intros Hj. exists (dict (zip (column_names cursor) row)).
  split; [by rewrite _format_results_lookup, Hj|].
  assert (dom (dict (zip (column_names cursor) row))
          = list_to_set (take (length row) (column_names cursor))) as Hdom.
  { rewrite (zip_take (column_names cursor) row). apply dict_zip_dom.
    rewrite !length_take. lia. }
  split; [apply (f_equal dict), zip_take|]. split; [done|].
  assert (size (dict (zip (column_names cursor) row))
          ≤ length (take (length row) (column_names cursor))) as Hsize.
  { rewrite <-size_dom, Hdom.
    assert (list_to_set (take (length row) (column_names cursor))
            =@{gset string}
            list_to_set (remove_dups (take (length row) (column_names cursor)))) as ->.
    { apply set_eq. intros x. by rewrite !elem_of_list_to_set, elem_of_remove_dups. }
    rewrite size_list_to_set by apply NoDup_remove_dups.
    apply submseteq_length, NoDup_submseteq; [apply NoDup_remove_dups|].
    intros x. by rewrite elem_of_remove_dups. }
  rewrite length_take in Hsize. split; [|lia].
  intros k Hk. apply elem_of_dom in Hk. rewrite Hdom, elem_of_list_to_set in Hk.
  apply elem_of_take in Hk as (i & Hi & _). by eapply list_elem_of_lookup_2.
Qed.

Lemma format_results_any_length_witness :
  let cursor := CursorResult [("ID", "int")] [[PyInt 1; PyStr "more"]; []] in
  fetchall cursor !! 1 = Some [] ∧
  ∃ d, _format_results cursor !! 1 = Some d ∧ size d ≤ 0.
Proof.
  intros cursor. split; [reflexivity|].
  destruct (format_results_any_length cursor 1 [] eq_refl)
    as (d & Hd & _ & _ & _ & Hsize & _).
  exists d. split; assumption.
Defined.

(** ** The direction depends on the rows of the transaction alone *)

Lemma greatest_ext texts texts' :
  (∀ a, a ∈ texts ↔ a ∈ texts') → greatest texts = greatest texts'.
Proof.
  intros Hsame. unfold greatest.
  destruct (decide ("OUT" ∈ texts)), (decide ("OUT" ∈ texts')),
    (decide ("Indefinido" ∈ texts)), (decide ("Indefinido" ∈ texts'));
    naive_solver.
Qed.

(** X9: for a collation that orders the labels, the inferred direction of
    a correlation id depends only on which rows bear that id, not on their
    order in the table nor on the rows of other ids: two tables of which
    the rows with the id are the same up to order infer the same
    direction. *)
Theorem direction_depends_on_own_rows (co : collation) (table table' : list tixlog_row)
    (nr_controle : string) :
  orders_labels co →
  rows_of co table nr_controle ≡ₚ rows_of co table' nr_controle →
  Tipo_Operacao co table nr_controle = Tipo_Operacao co table' nr_controle.
Proof.
  intros Horder Hperm.
  destruct (rows_of co table nr_controle) as [|r group] eqn:Hrows.
  - apply Permutation_nil_l in Hperm.
    unfold Tipo_Operacao. rewrite Hrows. by rewrite <-Hperm.
  - assert (rows_of co table' nr_controle ≠ []) as Hne'.
    { intros Hnil. rewrite Hnil in Hperm. by apply Permutation_nil_r in Hperm. }
    rewrite !Tipo_Operacao_greatest by (done || by rewrite Hrows).
    f_equal. apply greatest_ext. intros a. rewrite Hrows. by rewrite Hperm.
Qed.

Lemma direction_depends_on_own_rows_witness :
  let out := TixlogRow (Some "E1") (Some "envia_pix_prod") None in
  let other := TixlogRow (Some "E2") (Some "recebe_pix_prod") None in
  let undefined := TixlogRow (Some "E1") (Some "monitor") None in
  orders_labels binary_collation ∧
  rows_of binary_collation [out; other; undefined] "E1"
  ≡ₚ rows_of binary_collation [undefined; out] "E1" ∧
  Tipo_Operacao binary_collation [out; other; undefined] "E1"
  = Tipo_Operacao binary_collation [undefined; out] "E1".
Proof.
  intros out other undefined.
  assert (rows_of binary_collation [out; other; undefined] "E1"
          ≡ₚ rows_of binary_collation [undefined; out] "E1") as Hperm.
  { change ([out; undefined] ≡ₚ [undefined; out]). apply Permutation_swap. }
  split; [exact binary_collation_orders_labels|]. split; [exact Hperm|].
  exact (direction_depends_on_own_rows binary_collation [out; other; undefined]
           [undefined; out] "E1" binary_collation_orders_labels Hperm).
Defined.

(** ** The meaning shown for a status *)






(** ** The search page *)

Lemma py_bind_run {A B} (m : py A) (k : A → py B) drv w a w' :
  m drv w = (Returns a, w') → (m ≫= k) drv w = k a drv w'.
Proof. intros Hm. unfold mbind, py_bind. by rewrite Hm. Qed.

Lemma tixlog_primary_results_empty repos search_type drv w :
  tixlog_primary_results repos search_type "" drv w = (Returns [], w).
Proof. unfold tixlog_primary_results. by repeat case_bool_decide. Qed.

Lemma tixlog_complementary_results_empty repos search_type drv w :
  tixlog_complementary_results repos search_type "" drv w = (Returns [], w).
Proof. unfold tixlog_complementary_results. by repeat case_bool_decide. Qed.

(** X10: a search with the empty input, in any mode and for any text in
    the place of the mode, contacts the data source for nothing, draws no
    table and no summary, and returns; all it may show is the notice that
    nothing was found, and it shows it in each of the nine modes of the
    page.  The same holds in the list mode for an input of blank lines. *)
Theorem search_empty_input_contacts_nothing (ui : renderer) (search_clicked : bool)
    (repos : option repos) (search_type : string) (drv : driver) (w : world) :
  (search ui search_clicked repos search_type "" drv w = (Returns (), w) ∨
   search ui search_clicked repos search_type "" drv w
   = (Returns (), after w [no_results_notice])) ∧
  (∀ r, search_clicked = true → repos = Some r → search_type ∈ search_types →
        search ui search_clicked repos search_type "" drv w
        = (Returns (), after w [no_results_notice])) ∧
  (∀ r input_value,
     search_clicked = true → repos = Some r → nr_list_of input_value = [] →
     search ui search_clicked repos TIXLOG_LISTA input_value drv w
     = (Returns (), after w [no_results_notice])).
Proof.
  assert (∀ r,
    search ui true (Some r) search_type "" drv w
    = if bool_decide (search_type = MIX100_360)
         || bool_decide (search_type = MIX100_ENDTOEND)
         || bool_decide (search_type = MCLOG_CCT_KYT)
         || str_prefix "TIXLOG" search_type
         || bool_decide (search_type = MCLOG_CAD)
      then (Returns (), after w [no_results_notice]) else (Returns (), w)) as Hrun.
  { intros r. unfold search.
    rewrite (py_bind_run _ _ drv w () w).
    2: { destruct (_ || _); [|done].
         by rewrite (py_bind_run _ _ drv w [] w) by done. }
    destruct (bool_decide (search_type = MIX100_360)); [done|].
    destruct (bool_decide (search_type = MIX100_ENDTOEND)); [done|].
    destruct (bool_decide (search_type = MCLOG_CCT_KYT)); [done|].
    destruct (str_prefix "TIXLOG" search_type).
    { rewrite (py_bind_run _ _ drv w [] w)
        by apply tixlog_primary_results_empty.
      rewrite (py_bind_run _ _ drv w () w) by done.
      rewrite (py_bind_run _ _ drv w [] w)
        by apply tixlog_complementary_results_empty.
      done. }
    by destruct (bool_decide (search_type = MCLOG_CAD)). }
  split; [|split].
  - destruct search_clicked, repos as [r|]; try by left.
    rewrite Hrun. destruct (_ || _); [by right|by left].
  - intros r -> -> Htype. rewrite Hrun.
    unfold search_types in Htype.
    repeat (apply elem_of_cons in Htype as [->|Htype]; [reflexivity|]).
    by apply elem_of_nil in Htype.
  - intros r input_value -> -> Hnr. unfold search.
    rewrite (py_bind_run _ _ drv w () w) by done.
    change (bool_decide (TIXLOG_LISTA = MIX100_360)) with false.
    change (bool_decide (TIXLOG_LISTA = MIX100_ENDTOEND)) with false.
    change (bool_decide (TIXLOG_LISTA = MCLOG_CCT_KYT)) with false.
    change (str_prefix "TIXLOG" TIXLOG_LISTA) with true. cbv iota.
    assert (tixlog_primary_results r TIXLOG_LISTA input_value drv w = (Returns [], w))
      as Hprimary.
    { unfold tixlog_primary_results.
      change (bool_decide (TIXLOG_LISTA = TIXLOG_NR_CONTROLE)) with false.
      change (bool_decide (TIXLOG_LISTA = TIXLOG_IDREQJDPI)) with false.
      change (bool_decide (TIXLOG_LISTA = TIXLOG_LISTA)) with true.
      cbv iota. by rewrite Hnr. }
    assert (tixlog_complementary_results r TIXLOG_LISTA input_value drv w
            = (Returns [], w)) as Hcompl.
    { unfold tixlog_complementary_results.
      change (bool_decide (TIXLOG_LISTA = TIXLOG_LISTA)) with true.
      cbv iota. by rewrite Hnr. }
    rewrite (py_bind_run _ _ drv w [] w) by done.
    rewrite (py_bind_run _ _ drv w () w) by done.
    rewrite (py_bind_run _ _ drv w [] w) by done.
    done.
Qed.

Lemma search_empty_input_contacts_nothing_witness :
  MCLOG_CAD ∈ search_types ∧
  search renderer_raises true (Some (repos_on 0)) MCLOG_CAD "" driver_link_down
    fresh_world = (Returns (), after fresh_world [no_results_notice]) ∧
  nr_list_of unicode_blank = [] ∧
  search renderer_raises true (Some (repos_on 0)) TIXLOG_LISTA unicode_blank
    driver_link_down fresh_world = (Returns (), after fresh_world [no_results_notice]).
Proof.
  pose proof (search_empty_input_contacts_nothing renderer_raises true
                (Some (repos_on 0)) MCLOG_CAD driver_link_down fresh_world)
    as (_ & Hmode & _).
  pose proof (search_empty_input_contacts_nothing renderer_raises true
                (Some (repos_on 0)) TIXLOG_LISTA driver_link_down fresh_world)
    as (_ & _ & Hblank).
  assert (MCLOG_CAD ∈ search_types) as Htype.
  { apply (bool_decide_unpack _). vm_compute. exact I. }
  split; [exact Htype|].
  split; [exact (Hmode (repos_on 0) eq_refl eq_refl Htype)|].
  split; [reflexivity|].
  exact (Hblank (repos_on 0) unicode_blank eq_refl eq_refl eq_refl).
Defined.

(** On a driver that finds nothing, every operation returns the empty
    list and shows nothing. *)
Lemma operation_no_rows drv repos op w :
  answers_no_rows drv →
  ∃ evs, run_operation repos op drv w = (Returns [], after w evs) ∧
         Forall (λ ev, is_ui ev = false) evs.
Proof.
  intros Hdrv.
  assert (∀ r, fetchall r = [] → _format_results r = []) as Hformat.
  { intros r Hr. unfold _format_results. by rewrite Hr. }
  destruct (operation_shape repos op)
    as [Hnone|(c & sql & params & [[_ ->]|[_ [notice ->]]])].
  - exists []. by rewrite Hnone, after_nil.
  - rewrite helper_query_run.
    destruct (Hdrv (trace w ++ [EvCursor c]) c sql params) as (r & -> & Hr).
    rewrite (Hformat r Hr). eexists. split; [done|]. by repeat constructor.
  - rewrite guarded_query_run.
    destruct (Hdrv (trace w ++ [EvCursor c]) c sql params) as (r & -> & Hr).
    rewrite (Hformat r Hr). eexists. split; [done|]. by repeat constructor.
Qed.

Lemma mapM_no_rows drv self items w :
  answers_no_rows drv →
  ∃ sublists evs,
    mapM (λ item, Mclog.find_by_outras_info self item) items drv w
    = (Returns sublists, after w evs) ∧
    concat sublists = [] ∧ Forall (λ ev, is_ui ev = false) evs.
Proof.
  intros Hdrv. revert w. induction items as [|item items IH]; intros w.
  - exists [], []. by rewrite after_nil.
  - destruct (operation_no_rows drv (Repos (NewTixlogRepository 0) self
                  (NewMix100Repository 0) (NewMclogCctRepository 0))
                (Search MclogByOutrasInfo item) w Hdrv) as (evs1 & Hrun1 & Hui1).
    unfold run_operation, run_search in Hrun1. simpl in Hrun1.
    destruct (IH (after w evs1)) as (sublists & evs2 & Hrun2 & Hconcat & Hui2).
    exists ([] :: sublists), (evs1 ++ evs2). split; [|split].
    + simpl. rewrite (py_bind_run _ _ _ _ _ _ Hrun1).
      rewrite (py_bind_run _ _ _ _ _ _ Hrun2). by rewrite after_after.
    + done.
    + by apply Forall_app.
Qed.

Lemma tixlog_primary_results_no_rows drv repos search_type input_value w :
  answers_no_rows drv →
  ∃ evs, tixlog_primary_results repos search_type input_value drv w
         = (Returns [], after w evs) ∧
         Forall (λ ev, is_ui ev = false) evs.
Proof.
  intros Hdrv. unfold tixlog_primary_results.
  repeat case_bool_decide.
  - apply (operation_no_rows drv repos (Search TixlogByNrControle input_value) w Hdrv).
  - apply (operation_no_rows drv repos (Search TixlogByIdreqjdpi input_value) w Hdrv).
  - destruct (nr_list_of input_value) as [|nr rest] eqn:Hnr.
    + exists []. by rewrite after_nil.
    + apply (operation_no_rows drv repos (TixlogByNrControleIn (nr :: rest)) w Hdrv).
  - apply (operation_no_rows drv repos (Search TixlogByJsonContent input_value) w Hdrv).
  - apply (operation_no_rows drv repos (Search TixlogByOrigem input_value) w Hdrv).
  - exists []. by rewrite after_nil.
Qed.

Lemma tixlog_complementary_results_no_rows drv repos search_type input_value w :
  answers_no_rows drv →
  ∃ evs, tixlog_complementary_results repos search_type input_value drv w
         = (Returns [], after w evs) ∧
         Forall (λ ev, is_ui ev = false) evs.
Proof.
  intros Hdrv. unfold tixlog_complementary_results.
  case_bool_decide.
  - destruct (nr_list_of input_value) as [|nr rest] eqn:Hnr.
    + exists []. by rewrite after_nil.
    + destruct (mapM_no_rows drv (mclog repos) (nr :: rest) w Hdrv)
        as (sublists & evs & Hrun & Hconcat & Hui).
      exists evs. rewrite (py_bind_run _ _ _ _ _ _ Hrun), Hconcat. done.
  - apply (operation_no_rows drv repos (Search MclogByOutrasInfo input_value) w Hdrv).
Qed.

(** A lookup that found nothing, and the drawing of its results. *)
Lemma stage_no_rows {B} ui (m : py (list row)) title details (k : list row → py B)
    drv w evs :
  m drv w = (Returns [], after w evs) →
  (results ← m; display_results ui title results details;; k results) drv w
  = k [] drv (after w evs).
Proof. intros Hm. by rewrite (py_bind_run _ _ _ _ _ _ Hm). Qed.

(** The tests on the mode, once the mode is known. *)
Ltac decide_modes :=
  repeat match goal with
         | |- context [bool_decide (?a = ?b)] =>
           let v := eval vm_compute in (bool_decide (a = b)) in
           change (bool_decide (a = b)) with v
         | |- context [str_prefix ?p ?s] =>
           let v := eval vm_compute in (str_prefix p s) in
           change (str_prefix p s) with v
         end;
  cbn [orb andb]; cbv iota.

Ltac show_notice :=
  simpl; unfold st_info, emit, after; simpl; by rewrite <-?(assoc_L (++)).

Ltac tixlog_mode :=
  match goal with
  | Hp : tixlog_primary_results _ _ _ _ ?w = (_, after ?w ?evsp),
    Hc : tixlog_complementary_results _ _ _ _ (after ?w ?evsp) = (_, after _ ?evsc)
    |- ∃ _, _ _ ?w = _ ∧ _ =>
    rewrite (stage_no_rows _ _ _ _ _ _ _ _ Hp);
    rewrite (stage_no_rows _ _ _ _ _ _ _ _ Hc);
    exists (evsp ++ evsc); split; [show_notice|by apply Forall_app_2]
  end.

(** X11: when the database has no row for any query, a search in each of
    the nine modes, on any input, returns after showing the notice that
    nothing was found, as its last act; before it the page has done nothing
    but query: no table and no summary is drawn. *)
Theorem search_without_rows_shows_notice (ui : renderer) (repos : repos)
    (search_type input_value : string) (drv : driver) (w : world) :
  answers_no_rows drv → search_type ∈ search_types →
  ∃ evs,
    search ui true (Some repos) search_type input_value drv w
    = (Returns (), after w (evs ++ [no_results_notice])) ∧
    Forall (λ ev, is_ui ev = false) evs.
Proof.
  intros Hdrv Htype.
  destruct (operation_no_rows drv repos (Search TixlogTransactionSummary input_value)
              w Hdrv) as (evs0 & Hsummary & Hui0).
  unfold run_operation, run_search in Hsummary.
  destruct (tixlog_primary_results_no_rows drv repos search_type input_value w Hdrv)
    as (evsp & Hprimary & Huip).
  destruct (tixlog_complementary_results_no_rows drv repos search_type input_value
              (after w evsp) Hdrv) as (evsc & Hcompl & Huic).
  destruct (tixlog_primary_results_no_rows drv repos search_type input_value
              (after w evs0) Hdrv) as (evsp' & Hprimary' & Huip').
  destruct (tixlog_complementary_results_no_rows drv repos search_type input_value
              (after (after w evs0) evsp') Hdrv) as (evsc' & Hcompl' & Huic').
  unfold search_types in Htype.
  repeat (apply elem_of_cons in Htype as [->|Htype]); [..|by apply elem_of_nil in Htype];
    unfold search; decide_modes.
  - (* the full lookup by NR_CONTROLE *)
    rewrite (py_bind_run _ _ drv w () (after w evs0))
      by (by rewrite (py_bind_run _ _ _ _ _ _ Hsummary)).
    destruct (operation_no_rows drv repos (Search Mix100ByNrControle input_value)
                (after w evs0) Hdrv) as (evs1 & Hrun1 & Hui1).
    destruct (operation_no_rows drv repos (Search TixlogByNrControle input_value)
                (after (after w evs0) evs1) Hdrv) as (evs2 & Hrun2 & Hui2).
    destruct (operation_no_rows drv repos (Search MclogByOutrasInfo input_value)
                (after (after (after w evs0) evs1) evs2) Hdrv) as (evs3 & Hrun3 & Hui3).
    unfold run_operation, run_search in Hrun1, Hrun2, Hrun3.
    rewrite (stage_no_rows _ _ _ _ _ _ _ _ Hrun1).
    rewrite (stage_no_rows _ _ _ _ _ _ _ _ Hrun2).
    rewrite (stage_no_rows _ _ _ _ _ _ _ _ Hrun3).
    exists (evs0 ++ evs1 ++ evs2 ++ evs3). split; [show_notice|].
    by repeat apply Forall_app_2.
  - (* MIX100 by EndToEndId *)
    rewrite (py_bind_run _ _ drv w () w) by done.
    destruct (operation_no_rows drv repos
                (Search Mix100ByEndToEndIdDevolucao input_value) w Hdrv)
      as (evs1 & Hrun1 & Hui1).
    unfold run_operation, run_search in Hrun1.
    rewrite (stage_no_rows _ _ _ _ _ _ _ _ Hrun1).
    exists evs1. split; [show_notice|done].
  - (* MCLOG CCT by KYT id *)
    rewrite (py_bind_run _ _ drv w () w) by done.
    destruct (operation_no_rows drv repos (Search MclogCctByKytId input_value) w Hdrv)
      as (evs1 & Hrun1 & Hui1).
    unfold run_operation, run_search in Hrun1.
    rewrite (stage_no_rows _ _ _ _ _ _ _ _ Hrun1).
    exists evs1. split; [show_notice|done].
  - (* TIXLOG by NR_CONTROLE: the summary comes first *)
    rewrite (py_bind_run _ _ drv w () (after w evs0))
      by (by rewrite (py_bind_run _ _ _ _ _ _ Hsummary)).
    rewrite (stage_no_rows _ _ _ _ _ _ _ _ Hprimary').
    rewrite (stage_no_rows _ _ _ _ _ _ _ _ Hcompl').
    exists (evs0 ++ evsp' ++ evsc'). split; [show_notice|].
    by repeat apply Forall_app_2.
  - rewrite (py_bind_run _ _ drv w () w) by done. tixlog_mode.
  - rewrite (py_bind_run _ _ drv w () w) by done. tixlog_mode.
  - rewrite (py_bind_run _ _ drv w () w) by done. tixlog_mode.
  - rewrite (py_bind_run _ _ drv w () w) by done. tixlog_mode.
  - (* MCLOG CAD *)
    rewrite (py_bind_run _ _ drv w () w) by done.
    destruct (operation_no_rows drv repos (Search MclogByOutrasInfo input_value) w Hdrv)
      as (evs1 & Hrun1 & Hui1).
    unfold run_operation, run_search in Hrun1.
    rewrite (stage_no_rows _ _ _ _ _ _ _ _ Hrun1).
    exists evs1. split; [show_notice|done].
Qed.

Lemma driver_no_rows_answers_no_rows : answers_no_rows driver_no_rows.
Proof. intros tr c sql params. by eexists. Qed.

Lemma search_without_rows_shows_notice_witness :
  answers_no_rows driver_no_rows ∧ MIX100_360 ∈ search_types ∧
  ∃ evs,
    search renderer_raises true (Some (repos_on 0)) MIX100_360 "E2024" driver_no_rows
      fresh_world
    = (Returns (), after fresh_world (evs ++ [no_results_notice])) ∧
    Forall (λ ev, is_ui ev = false) evs.
Proof.
  assert (MIX100_360 ∈ search_types) as Htype.
  { apply (bool_decide_unpack _). vm_compute. exact I. }
  split; [exact driver_no_rows_answers_no_rows|]. split; [exact Htype|].
  exact (search_without_rows_shows_notice renderer_raises (repos_on 0) MIX100_360
           "E2024" driver_no_rows fresh_world driver_no_rows_answers_no_rows Htype).
Defined.

(** ** The in-list search, whatever the items *)

(** X13: the text of the in-list query depends on the number of items
    alone: two lists of the same length send the same text, and the items
    reach the database only as the parameters, in their order and with
    their repetitions. *)
Theorem in_list_text_depends_on_length (self : TixlogRepository)
    (items1 items2 : list string) (drv1 drv2 : driver) (w1 w2 : world) :
  length items1 = length items2 →
  ∀ c1 text1 params1 c2 text2 params2,
    EvExecute c1 text1 params1
      ∈ new_events w1 (Tixlog.find_by_nr_controle_in self items1 drv1 w1).2 →
    EvExecute c2 text2 params2
      ∈ new_events w2 (Tixlog.find_by_nr_controle_in self items2 drv2 w2).2 →
    text1 = text2 ∧ params1 = PyStr <$> items1 ∧ params2 = PyStr <$> items2.
Proof.
  intros Hlen c1 text1 params1 c2 text2 params2.
  assert (∀ items drv w c text params,
            EvExecute c text params
              ∈ new_events w (Tixlog.find_by_nr_controle_in self items drv w).2 →
            text = "SELECT TOP (1000) * FROM [indigo_pix].[dbo].[TIXLOG] WITH (NOLOCK)"
                   +:+ " WHERE "
                   +:+ ("NR_CONTROLE IN ("
                        +:+ str_join ", " (replicate (length items) "?") +:+ ")")
                   +:+ " ORDER BY ID DESC" ∧
            params = PyStr <$> items) as Hone.
  { intros items drv w c text params.
    destruct items as [|item items].
    { simpl. unfold new_events. rewrite drop_all. intros Hin.
      by apply elem_of_nil in Hin. }
    unfold Tixlog.find_by_nr_controle_in. cbv beta iota zeta.
    rewrite _execute_query_run, str_join_placeholders. cbv zeta. simpl snd.
    rewrite new_events_after.
    rewrite !elem_of_cons, elem_of_nil. intros [?|[?|[?|?]]]; by simplify_eq. }
  intros H1 H2. apply Hone in H1 as [-> ->]. apply Hone in H2 as [-> ->].
  by rewrite Hlen.
Qed.

Lemma in_list_text_depends_on_length_witness :
  length ["E1"; "E1"] = length ["E7"; "E8"] ∧
  ∀ c1 text1 params1 c2 text2 params2,
    EvExecute c1 text1 params1
      ∈ new_events fresh_world
          (Tixlog.find_by_nr_controle_in (NewTixlogRepository 0) ["E1"; "E1"]
             driver_one_row fresh_world).2 →
    EvExecute c2 text2 params2
      ∈ new_events fresh_world
          (Tixlog.find_by_nr_controle_in (NewTixlogRepository 0) ["E7"; "E8"]
             driver_link_down fresh_world).2 →
    text1 = text2 ∧ params1 = PyStr <$> ["E1"; "E1"] ∧ params2 = PyStr <$> ["E7"; "E8"].
Proof.
  split; [reflexivity|].
  exact (in_list_text_depends_on_length (NewTixlogRepository 0) ["E1"; "E1"]
           ["E7"; "E8"] driver_one_row driver_link_down fresh_world fresh_world eq_refl).
Defined.

(** ** The probe closes its cursor *)

(** X14: [check_connection] opens at most one cursor, for its probe, and
    closes it before it returns or raises: when the probe succeeds, when it
    fails and the connection is established anew, when establishment fails
    too, and when the error of the probe is raised to the caller. *)
Theorem check_connection_closes_its_cursor (drv : driver) (w : world) :
  ∃ evs,
    trace (check_connection drv w).2 = trace w ++ evs ∧
    opened evs = closed evs ∧ opened evs ≤ 1 ∧
    (opened evs = 1 → ∃ c evs', evs = EvCursor c :: evs' ++ [EvClose c]).
Proof.
  pose proof (check_connection_cases drv w) as Hcases.
  assert (∀ answer, ∃ evs,
            trace (established (trace w) answer).2 = trace w ++ evs ∧
            opened evs = closed evs ∧ opened evs ≤ 1 ∧
            (opened evs = 1 → ∃ c evs', evs = EvCursor c :: evs' ++ [EvClose c]))
    as Hinit.
  { intros [e|c]; simpl; eexists; (split; [reflexivity|]);
      (split; [reflexivity|]); (split; [by vm_compute; lia|]);
      intros Hone; by vm_compute in Hone. }
  destruct (session_repos w) as [| |r]; [rewrite Hcases; apply Hinit..|].
  destruct (db_connection w) as [| |c].
  1,2: destruct Hcases as [e ->]; exists []; rewrite app_nil_r;
       (split; [reflexivity|]); (split; [reflexivity|]); (split; [by vm_compute; lia|]);
       intros Hone; by vm_compute in Hone.
  destruct (cursor_execute drv (trace w ++ [EvCursor c]) c "SELECT 1" []) as [e|res].
  - destruct (is_Operational_or_Programming e); rewrite Hcases.
    + cbv zeta.
      destruct (pyodbc_connect drv (trace w ++ probe c ++ [lost_notice])) as [e'|c'];
        simpl; rewrite <-!(assoc_L (++)); simpl;
        (eexists; split; [reflexivity|]);
        (split; [reflexivity|]); (split; [reflexivity|]); intros _.
      * by exists c, [EvExecute c "SELECT 1" []; lost_notice; EvConnect;
                      EvUi (StError ("Erro ao conectar ao banco de dados: "
                                     +:+ exn_str e'));
                      EvUi (StWarning "Verifique se o arquivo `.streamlit/secrets.toml` está configurado corretamente.")].
      * by exists c, [EvExecute c "SELECT 1" []; lost_notice; EvConnect].
    + simpl. eexists. split; [reflexivity|].
      split; [reflexivity|]. split; [reflexivity|]. intros _.
      by exists c, [EvExecute c "SELECT 1" []].
  - rewrite Hcases. simpl. eexists. split; [reflexivity|].
    split; [reflexivity|]. split; [reflexivity|]. intros _.
    by exists c, [EvExecute c "SELECT 1" []].
Qed.
